(** * matrix-bots: the message and invite handlers of the chat bridge

    A shallow embedding of the two event handlers of the bot, in both
    versions the repository holds:

    - [Bot]: package [bot] ([bot/matrix.go]), the threaded version that keeps
      a store of conversations and records user and assistant turns;
    - [MatrixPkg]: package [matrix], the earlier single-shot version that
      sends one request per message and picks the reply out of the
      response's choices itself.

    The handlers talk to three collaborators (the Matrix homeserver, the
    completion service and the logger).  Every call a handler makes is
    recorded, in order, in a trace of [Effect]s; what the collaborator
    answers is read from a [World], so a handler is a function of the bot's
    state, the world and the event. *)

From Stdlib Require Import String ZArith List Lia Bool.
From stdpp Require Import base option list strings.
Import ListNotations.

Local Open Scope string_scope.
Local Open Scope list_scope.

(** ** Go values *)

(** A Go call returning [(v, err)]: [Ok v] when [err == nil]. *)
Inductive GoResult (A : Type) : Type :=
| Ok (v : A)
| Err (err : string).
Arguments Ok {A} v.
Arguments Err {A} err.

(** [s[i]] on a slice, with the index an [int]: out of range is a run-time
    panic, here [None]. *)
Definition index {A : Type} (s : list A) (i : Z) : option A :=
  if (i <? 0)%Z || (Z.of_nat (length s) <=? i)%Z then None
  else s !! Z.to_nat i.

(** [len(s)] as an [int]. *)
Definition len {A : Type} (s : list A) : Z := Z.of_nat (length s).

(** ** The mautrix event model

    [id.UserID], [id.EventID] and [id.RoomID] are string types, compared
    with [==]; they are [string] here. *)
Module Mautrix.

Inductive EventType := StateMember | EventMessage | OtherType (name : string).

Definition MembershipInvite : string := "invite".

Record InReplyTo := { IRT_EventID : string }.

Record RelatesTo := { RT_InReplyTo : option InReplyTo }.

(** [event.MessageEventContent], the fields the handlers read or write. *)
Record MessageEventContent := {
  MsgType : string;
  Body : string;
  Format : string;
  FormattedBody : string;
  MEC_RelatesTo : option RelatesTo
}.

Record MemberEventContent := { Membership : string }.

(** [event.Content]: the parsed content of an event. *)
Inductive Content :=
| ParsedMessage (c : MessageEventContent)
| ParsedMember (c : MemberEventContent)
| Unparsed.

Record Event := {
  StateKey : option string;
  Sender : string;
  Type_ : EventType;
  ID : string;
  RoomID : string;
  Content_ : Content
}.

Definition emptyMessage : MessageEventContent :=
  {| MsgType := ""; Body := ""; Format := ""; FormattedBody := "";
     MEC_RelatesTo := None |}.

(** [Content.AsMessage]: the parsed message, or an empty one. *)
Definition AsMessage (c : Content) : MessageEventContent :=
  match c with
  | ParsedMessage m => m
  | _ => emptyMessage
  end.

(** [Content.AsMember]: the parsed membership, or an empty one. *)
Definition AsMember (c : Content) : MemberEventContent :=
  match c with
  | ParsedMember m => m
  | _ => {| Membership := "" |}
  end.

(** [Event.GetStateKey]: the state key, or the empty string. *)
Definition GetStateKey (evt : Event) : string :=
  match StateKey evt with
  | Some k => k
  | None => ""
  end.

Definition GetRelatesTo (c : MessageEventContent) : option RelatesTo :=
  MEC_RelatesTo c.

(** [RelatesTo.GetReplyTo]: the replied-to event, or the empty string. *)
Definition GetReplyTo (rel : RelatesTo) : string :=
  match RT_InReplyTo rel with
  | Some r => IRT_EventID r
  | None => ""
  end.

(** [formattedReply.RelatesTo = rel]. *)
Definition set_RelatesTo (c : MessageEventContent) (rel : option RelatesTo)
  : MessageEventContent :=
  {| MsgType := MsgType c; Body := Body c; Format := Format c;
     FormattedBody := FormattedBody c; MEC_RelatesTo := rel |}.

End Mautrix.

(** ** The go-openai request and response *)
Module OpenAI.

Definition ChatMessageRoleSystem : string := "system".
Definition ChatMessageRoleUser : string := "user".
Definition ChatMessageRoleAssistant : string := "assistant".
Definition GPT4 : string := "gpt-4".

Record ChatCompletionMessage := { Role : string; Content : string }.

Record ChatCompletionRequest := {
  Model : string;
  Messages : list ChatCompletionMessage
}.

Record ChatCompletionChoice := { Message : ChatCompletionMessage }.

Record ChatCompletionResponse := { Choices : list ChatCompletionChoice }.

End OpenAI.

(** ** Effects and the world *)

Inductive Level := Info | Error.

(** The calls a handler makes to its collaborators.  [Req] is what a
    completion call is given: a conversation in package [bot], a request in
    package [matrix]. *)
Inductive Effect (Req : Type) : Type :=
| Log (lvl : Level) (fields : list (string * string)) (msg : string)
| Println (line : string)
| SetPrompt (prompt : string)
| JoinRoomByID (room : string)
| Completion (req : Req)
| SendMessageEvent (room : string) (ty : Mautrix.EventType)
    (content : Mautrix.MessageEventContent).
Arguments Log {Req} lvl fields msg.
Arguments Println {Req} line.
Arguments SetPrompt {Req} prompt.
Arguments JoinRoomByID {Req} room.
Arguments Completion {Req} req.
Arguments SendMessageEvent {Req} room ty content.

(** What the collaborators answer while one event is handled.  A handler
    makes each call at most once per event, so a function of the call's
    arguments says all there is. *)
Record World (Req Resp : Type) : Type := {
  joinRoom : string -> GoResult unit;
  complete : Req -> GoResult Resp;
  sendMessage : string -> Mautrix.EventType -> Mautrix.MessageEventContent ->
                GoResult string
}.
Arguments joinRoom {Req Resp} w room.
Arguments complete {Req Resp} w req.
Arguments sendMessage {Req Resp} w room ty content.

Definition isJoin {Req : Type} (e : Effect Req) : bool :=
  match e with JoinRoomByID _ => true | _ => false end.

Definition isSend {Req : Type} (e : Effect Req) : bool :=
  match e with SendMessageEvent _ _ _ => true | _ => false end.

Definition isCompletion {Req : Type} (e : Effect Req) : bool :=
  match e with Completion _ => true | _ => false end.

(** The rooms the bot has entered through a trace: those of the join calls
    the homeserver accepted. *)
Definition joined {Req Resp : Type} (w : World Req Resp)
    (t : list (Effect Req)) : list string :=
  flat_map (fun e => match e with
                     | JoinRoomByID room =>
                         match joinRoom w room with
                         | Ok _ => [room]
                         | Err _ => []
                         end
                     | _ => []
                     end) t.

(** ** Package [bot] ([bot/matrix.go]) *)
Module Bot.
Import Mautrix.

Record Config := {
  Homeserver : string;
  UserID : string;
  UserAccessKey : string;
  UserPassword : string;
  DBPath : string;
  Pickle : string;
  OpenAIKey : string
}.

(** A turn, with the fields the handler's struct literals give it. *)
Record Message := {
  EventID : string;
  ParentID : string;
  Role : string;
  Content : string
}.

(** Modelled from the spec: the [Conversation] struct, whose declaration is
    not among the sources.  A conversation is its ordered sequence of
    turns, in order of arrival. *)
Record Conversation := { Messages : list Message }.

(** [Conversations] is [[]*Conversation].  The store is the only holder of
    these pointers and never drops one, so a [*Conversation] is the place
    of the conversation in the store, and a write through the pointer is an
    update at that place. *)
Abbreviation Conversations := (list Conversation).

(** Modelled from the spec: [NewConversation], whose declaration is not
    among the sources.  It allocates a conversation seeded with one user
    turn whose content is the body it is given.  The call site passes the
    body and nothing else, so the seed's [EventID] and [ParentID] are the
    zero value of their type. *)
Definition NewConversation (body : string) : Conversation :=
  {| Messages := [ {| EventID := ""; ParentID := "";
                      Role := OpenAI.ChatMessageRoleUser;
                      Content := body |} ] |}.

(** Modelled from the spec: [Conversation.Add], whose declaration is not
    among the sources.  It adds the turn to the end of the sequence, with
    no de-duplication. *)
Definition Add (c : Conversation) (msg : Message) : Conversation :=
  {| Messages := Messages c ++ [msg] |}.

(** A conversation holds a turn with this id. *)
Definition holds (id : string) (c : Conversation) : Prop :=
  id ∈ (EventID <$> Messages c).

#[global] Instance holds_dec id c : Decision (holds id c).
Proof. unfold holds. apply _. Defined.

(** Modelled from the spec: [Conversations.FindByEventID], whose
    declaration is not among the sources.  A linear lookup over the store:
    the first conversation holding a turn with that id (its place and the
    conversation), or [None] for nil. *)
Definition FindByEventID (cs : Conversations) (id : string)
  : option (nat * Conversation) :=
  list_find (holds id) cs.

(** The [Matrix] struct, the fields the handlers read: [readline], the
    crypto helper and the two clients' connections are the world's. *)
Record Matrix := {
  config : Config;
  client_UserID : string;
  conversations : Conversations
}.

Definition set_conversations (m : Matrix) (cs : Conversations) : Matrix :=
  {| config := config m; client_UserID := client_UserID m;
     conversations := cs |}.

Abbreviation Eff := (Effect Conversation).

(** Modelled from the spec: [GPT.Complete], whose declaration is not among
    the sources.  It takes the conversation, asks the completion service and
    returns the reply text, or the service's error with no retry; what it
    returns for a conversation is the world's [complete]. *)
Abbreviation W := (World Conversation string).

Definition Handler : Type := Matrix -> W -> Event -> Matrix * list Eff.

(** Lines 128-131: the event replied to, or the empty id. *)
Definition replyParent (content : MessageEventContent) : string :=
  match GetRelatesTo content with
  | Some relatesTo => GetReplyTo relatesTo
  | None => ""
  end.

(** Lines 133-149: find the existing conversation and add the message to
    it, or start a new one and register it.  The result is the store and
    what [conv] then points to: its place and the conversation there. *)
Definition resolve (cs : Conversations) (eventID parentID body : string)
  : Conversations * nat * Conversation :=
  let conv := if negb (String.eqb parentID "")
              then FindByEventID cs parentID
              else None in
  match conv with
  | Some (p, c) =>
      let c' := Add c {| EventID := eventID; ParentID := parentID;
                         Role := OpenAI.ChatMessageRoleUser;
                         Content := body |} in
      (<[p := c']> cs, p, c')
  | None =>
      let c' := NewConversation body in
      (cs ++ [c'], length cs, c')
  end.

Section Handlers.

(** [format.RenderMarkdown], of the mautrix library. *)
Variable RenderMarkdown : string -> bool -> bool -> MessageEventContent.

Definition InviteHandler : EventType * Handler :=
  (StateMember, fun m w evt =>
    if String.eqb (GetStateKey evt) (client_UserID m)
       && String.eqb (Membership (AsMember (Content_ evt))) MembershipInvite
    then
      match joinRoom w (RoomID evt) with
      | Ok _ =>
          (m, [ JoinRoomByID (RoomID evt);
                Log Info [("room_id", RoomID evt); ("inviter", Sender evt)]
                  "Joined room after invite" ])
      | Err err =>
          (m, [ JoinRoomByID (RoomID evt);
                Log Error [("error", err); ("room_id", RoomID evt);
                           ("inviter", Sender evt)]
                  "Failed to join room after invite" ])
      end
    else (m, [])).

Definition RespondHandler : EventType * Handler :=
  (EventMessage, fun m w evt =>
    let content := AsMessage (Content_ evt) in
    let t0 : list Eff :=
      [ Log Info [("content", Body content)] "Received message" ] in
    if negb (String.eqb (Sender evt) (UserID (config m))) then
      let eventID := ID evt in
      let parentID := replyParent content in
      let '(cs, p, conv) :=
        resolve (conversations m) eventID parentID (Body content) in
      let m := set_conversations m cs in
      (* get reply from GPT *)
      let t1 := t0 ++ [ Completion conv ] in
      match complete w conv with
      | Err err =>
          (m, t1 ++ [ Log Error [("error", err)]
                        "OpenAI API returned with " ])
      | Ok reply =>
          let formattedReply :=
            set_RelatesTo (RenderMarkdown reply true false)
              (Some {| RT_InReplyTo :=
                         Some {| IRT_EventID := eventID |} |}) in
          let t2 := t1 ++ [ SendMessageEvent (RoomID evt) EventMessage
                              formattedReply ] in
          match sendMessage w (RoomID evt) EventMessage formattedReply with
          | Err err =>
              (m, t2 ++ [ Log Error [("error", err)]
                            "failed to send message" ])
          | Ok respEventID =>
              (* add reply to conversation *)
              let conv := Add conv {| EventID := respEventID;
                                      Role := OpenAI.ChatMessageRoleAssistant;
                                      Content := reply;
                                      ParentID := eventID |} in
              (set_conversations m (<[p := conv]> cs),
               t2 ++ [ Log Info [("message", Body formattedReply)]
                         "Sent reply" ])
          end
      end
    else (m, t0)).

End Handlers.

(** Calling a registered handler. *)
Definition handle (h : EventType * Handler) : Handler := snd h.

#[global] Instance EventType_eq_dec : EqDecision EventType.
Proof. solve_decision. Defined.

(** The syncer's dispatch of one event: every handler registered for the
    event's type is called, in the order of registration. *)
Fixpoint dispatch (hs : list (EventType * Handler)) (m : Matrix) (w : W)
    (evt : Event) : Matrix * list Eff :=
  match hs with
  | [] => (m, [])
  | h :: hs =>
      if decide (fst h = Type_ evt) then
        let '(m1, t1) := snd h m w evt in
        let '(m2, t2) := dispatch hs m1 w evt in
        (m2, t1 ++ t2)
      else dispatch hs m w evt
  end.

(** [Run]: the sync loop over the stream of events, one event handled to
    its end before the next. *)
Fixpoint Sync (hs : list (EventType * Handler)) (m : Matrix)
    (evs : list (W * Event)) : Matrix * list Eff :=
  match evs with
  | [] => (m, [])
  | (w, evt) :: evs =>
      let '(m1, t1) := dispatch hs m w evt in
      let '(m2, t2) := Sync hs m1 evs in
      (m2, t1 ++ t2)
  end.

(** The turns of the conversation at a place of the store; none where the
    store has no conversation yet. *)
Definition turnsAt (cs : Conversations) (p : nat) : list Message :=
  match cs !! p with
  | Some c => Messages c
  | None => []
  end.

End Bot.

(** ** Package [matrix], the single-shot version *)
Module MatrixPkg.
Import Mautrix.

Record Config := {
  Homeserver : string;
  UserID : string;
  UserAccessKey : string;
  UserPassword : string;
  DBPath : string;
  Pickle : string
}.

Record Matrix := {
  config : Config;
  client_UserID : string
}.

(** How a handler call ends: it returns, or an index out of range stops it
    with a run-time panic. *)
Inductive Outcome := Returned | Panicked.

Abbreviation Eff := (Effect OpenAI.ChatCompletionRequest).
Abbreviation W :=
  (World OpenAI.ChatCompletionRequest OpenAI.ChatCompletionResponse).

Definition Handler : Type := Matrix -> W -> Event -> list Eff * Outcome.

(** [event.Type.String]. *)
Definition typeString (ty : EventType) : string :=
  match ty with
  | StateMember => "m.room.member"
  | EventMessage => "m.room.message"
  | OtherType name => name
  end.

Definition systemPrompt : string :=
  "You are a chatbot that helps people by responding to their questions with short messages.".

(** Lines 136-151: the request, a system message and the user's body. *)
Definition request (msgBody : string) : OpenAI.ChatCompletionRequest :=
  {| OpenAI.Model := OpenAI.GPT4;
     OpenAI.Messages :=
       [ {| OpenAI.Role := OpenAI.ChatMessageRoleSystem;
            OpenAI.Content := systemPrompt |};
         {| OpenAI.Role := OpenAI.ChatMessageRoleUser;
            OpenAI.Content := msgBody |} ] |}.

Section Handlers.

(** [format.RenderMarkdown], of the mautrix library. *)
Variable RenderMarkdown : string -> bool -> bool -> MessageEventContent.

Definition InviteHandler : EventType * Handler :=
  (StateMember, fun m w evt =>
    if String.eqb (GetStateKey evt) (client_UserID m)
       && String.eqb (Membership (AsMember (Content_ evt))) MembershipInvite
    then
      match joinRoom w (RoomID evt) with
      | Ok _ =>
          ([ JoinRoomByID (RoomID evt);
             SetPrompt (RoomID evt ++ "> ");
             Log Info [("room_id", RoomID evt); ("inviter", Sender evt)]
               "Joined room after invite" ], Returned)
      | Err err =>
          ([ JoinRoomByID (RoomID evt);
             Log Error [("error", err); ("room_id", RoomID evt);
                        ("inviter", Sender evt)]
               "Failed to join room after invite" ], Returned)
      end
    else ([], Returned)).

Definition RespondHandler : EventType * Handler :=
  (EventMessage, fun m w evt =>
    let t0 : list Eff :=
      [ SetPrompt (RoomID evt ++ "> ");
        Log Info [("sender", Sender evt); ("type", typeString (Type_ evt));
                  ("id", ID evt); ("body", Body (AsMessage (Content_ evt)))]
          "Received message" ] in
    if negb (String.eqb (Sender evt) (UserID (config m))) then
      let msgBody := Body (AsMessage (Content_ evt)) in
      (* Generate a message with OpenAI API *)
      let t1 := t0 ++ [ Completion (request msgBody) ] in
      match complete w (request msgBody) with
      | Err err =>
          (t1 ++ [ Println ("OpenAI API returned with " ++ " " ++ err) ],
           Returned)
      | Ok openAiResp =>
          (* Send the OpenAI response back to the chat *)
          match index (OpenAI.Choices openAiResp)
                  (len (OpenAI.Choices openAiResp) - 1) with
          | None => (t1, Panicked)
          | Some choice =>
              let responseMarkdown := OpenAI.Content (OpenAI.Message choice) in
              let responseMessage := RenderMarkdown responseMarkdown true false in
              (t1 ++ [ SendMessageEvent (RoomID evt) EventMessage
                         responseMessage ], Returned)
          end
      end
    else (t0, Returned)).

End Handlers.

(** Calling a registered handler. *)
Definition handle (h : EventType * Handler) : Handler := snd h.

End MatrixPkg.

(** ** Vocabulary of the statements *)

(** A markdown renderer to run the handlers with: the text as it is. *)
Definition plainText (text : string) (allowMarkdown allowHTML : bool)
  : Mautrix.MessageEventContent :=
  {| Mautrix.MsgType := "m.text"; Mautrix.Body := text;
     Mautrix.Format := ""; Mautrix.FormattedBody := "";
     Mautrix.MEC_RelatesTo := None |}.

(** An event is the bot's own when its sender is the configured user. *)
Definition ownEvent (m : Bot.Matrix) (evt : Mautrix.Event) : Prop :=
  Mautrix.Sender evt = Bot.UserID (Bot.config m).

(** The turn the handler records for an inbound event. *)
Definition userTurn (evt : Mautrix.Event) : Bot.Message :=
  let content := Mautrix.AsMessage (Mautrix.Content_ evt) in
  {| Bot.EventID := Mautrix.ID evt;
     Bot.ParentID := Bot.replyParent content;
     Bot.Role := OpenAI.ChatMessageRoleUser;
     Bot.Content := Mautrix.Body content |}.

(** The turn the handler records for a reply it has sent. *)
Definition assistantTurn (evt : Mautrix.Event) (sent reply : string)
  : Bot.Message :=
  {| Bot.EventID := sent;
     Bot.ParentID := Mautrix.ID evt;
     Bot.Role := OpenAI.ChatMessageRoleAssistant;
     Bot.Content := reply |}.

(** The store, and the conversation the handler works on, once the inbound
    event has been resolved and before the completion call. *)
Definition resolved (m : Bot.Matrix) (evt : Mautrix.Event)
  : list Bot.Conversation * nat * Bot.Conversation :=
  let content := Mautrix.AsMessage (Mautrix.Content_ evt) in
  Bot.resolve (Bot.conversations m) (Mautrix.ID evt)
    (Bot.replyParent content) (Mautrix.Body content).

(** The message the handler sends for a reply text. *)
Definition outbound (render : string -> bool -> bool -> Mautrix.MessageEventContent)
    (evt : Mautrix.Event) (reply : string) : Mautrix.MessageEventContent :=
  Mautrix.set_RelatesTo (render reply true false)
    (Some {| Mautrix.RT_InReplyTo :=
               Some {| Mautrix.IRT_EventID := Mautrix.ID evt |} |}).

(** The calls of one kind in a trace. *)
Definition sends {Req : Type} (t : list (Effect Req)) : list (Effect Req) :=
  List.filter isSend t.

Definition completions {Req : Type} (t : list (Effect Req)) : list (Effect Req) :=
  List.filter isCompletion t.

Definition joins {Req : Type} (t : list (Effect Req)) : list (Effect Req) :=
  List.filter isJoin t.

Definition legacyBot : MatrixPkg.Matrix :=
  {| MatrixPkg.config :=
       {| MatrixPkg.Homeserver := "https://example.org";
          MatrixPkg.UserID := "@bot:example.org";
          MatrixPkg.UserAccessKey := "key"; MatrixPkg.UserPassword := "pw";
          MatrixPkg.DBPath := "bot.db"; MatrixPkg.Pickle := "pickle" |};
     MatrixPkg.client_UserID := "@bot:example.org" |}.

(** A completion service answering every request with these choices. *)
Definition choosing (texts : list string) : MatrixPkg.W :=
  {| joinRoom := fun _ => Ok tt;
     complete := fun _ =>
       Ok {| OpenAI.Choices :=
               List.map (fun text =>
                 {| OpenAI.Message :=
                      {| OpenAI.Role := OpenAI.ChatMessageRoleAssistant;
                         OpenAI.Content := text |} |}) texts |};
     sendMessage := fun _ _ _ => Ok "$sent" |}.

Definition legacyDown : MatrixPkg.W :=
  {| joinRoom := fun _ => Err "M_FORBIDDEN";
     complete := fun _ => Err "status code: 503";
     sendMessage := fun _ _ _ => Err "M_FORBIDDEN" |}.

(** The first thing the handler does: log the message it received. *)
Definition received (evt : Mautrix.Event) : Effect Bot.Conversation :=
  Log Info [("content", Mautrix.Body (Mautrix.AsMessage (Mautrix.Content_ evt)))]
    "Received message".

(** The store after the resolution, the place of the conversation the
    handler works on, and that conversation as the completion call sees it. *)
Definition registered (m : Bot.Matrix) (evt : Mautrix.Event)
  : list Bot.Conversation := fst (fst (resolved m evt)).

Definition place (m : Bot.Matrix) (evt : Mautrix.Event) : nat :=
  snd (fst (resolved m evt)).

Definition pending (m : Bot.Matrix) (evt : Mautrix.Event) : Bot.Conversation :=
  snd (resolved m evt).

(** The store [cs'] is [cs] with the turns [new] added, in this order, at the
    end of the conversation at place [p], a conversation that [cs] need not
    have yet, and nothing else is changed. *)
Definition gains (cs cs' : list Bot.Conversation) (p : nat)
    (new : list Bot.Message) : Prop :=
  Bot.turnsAt cs' p = Bot.turnsAt cs p ++ new /\
  forall q, q <> p -> cs' !! q = cs !! q.

(** The example of the spec: a first message, answered. *)
Definition botConfig : Bot.Config :=
  {| Bot.Homeserver := "https://example.org"; Bot.UserID := "@bot:example.org";
     Bot.UserAccessKey := "key"; Bot.UserPassword := "pw";
     Bot.DBPath := "bot.db"; Bot.Pickle := "pickle"; Bot.OpenAIKey := "sk" |}.

Definition emptyBot : Bot.Matrix :=
  {| Bot.config := botConfig; Bot.client_UserID := "@bot:example.org";
     Bot.conversations := [] |}.

Definition textEvent (sender id body : string) (parent : option string)
  : Mautrix.Event :=
  {| Mautrix.StateKey := None; Mautrix.Sender := sender;
     Mautrix.Type_ := Mautrix.EventMessage; Mautrix.ID := id;
     Mautrix.RoomID := "!room:example.org";
     Mautrix.Content_ :=
       Mautrix.ParsedMessage
         {| Mautrix.MsgType := "m.text"; Mautrix.Body := body;
            Mautrix.Format := ""; Mautrix.FormattedBody := "";
            Mautrix.MEC_RelatesTo :=
              match parent with
              | Some p => Some {| Mautrix.RT_InReplyTo :=
                                    Some {| Mautrix.IRT_EventID := p |} |}
              | None => None
              end |} |}.

(** A world where every call succeeds, one where the completion fails and
    one where the send fails. *)
Definition answering (reply sent : string) : Bot.W :=
  {| joinRoom := fun _ => Ok tt;
     complete := fun _ => Ok reply;
     sendMessage := fun _ _ _ => Ok sent |}.

Definition completionDown : Bot.W :=
  {| joinRoom := fun _ => Ok tt;
     complete := fun _ => Err "status code: 503";
     sendMessage := fun _ _ _ => Ok "$never" |}.

Definition sendDown (reply : string) : Bot.W :=
  {| joinRoom := fun _ => Ok tt;
     complete := fun _ => Ok reply;
     sendMessage := fun _ _ _ => Err "M_FORBIDDEN" |}.

Definition hello : Mautrix.Event := textEvent "@alice:example.org" "$E1" "Hello" None.

Definition howAreYou : Mautrix.Event :=
  textEvent "@alice:example.org" "$E3" "How are you?" (Some "$E2").

(** The bot after [hello] has been answered with ["Hello there!"], sent as
    [$E2]. *)
Definition greeted : Bot.Matrix :=
  Eval vm_compute in
    fst (Bot.handle (Bot.RespondHandler plainText) emptyBot
           (answering "Hello there!" "$E2") hello).

(** The two handlers, as they are registered with the syncer. *)
Definition handlers (R : string -> bool -> bool -> Mautrix.MessageEventContent)
  : list (Mautrix.EventType * Bot.Handler) :=
  [ Bot.InviteHandler; Bot.RespondHandler R ].

(** The bot after [howAreYou] has been answered too, with [$E4]. *)
Definition chatting : Bot.Matrix :=
  Eval vm_compute in
    fst (Bot.handle (Bot.RespondHandler plainText) greeted
           (answering "Fine, thanks." "$E4") howAreYou).


(** An invite of the bot into a room. *)
Definition invite : Mautrix.Event :=
  {| Mautrix.StateKey := Some "@bot:example.org";
     Mautrix.Sender := "@alice:example.org";
     Mautrix.Type_ := Mautrix.StateMember; Mautrix.ID := "$I1";
     Mautrix.RoomID := "!lounge:example.org";
     Mautrix.Content_ :=
       Mautrix.ParsedMember {| Mautrix.Membership := "invite" |} |}.

(** A homeserver that refuses the join. *)
Definition joinDown : Bot.W :=
  {| joinRoom := fun _ => Err "M_FORBIDDEN";
     complete := fun _ => Ok "Hello there!";
     sendMessage := fun _ _ _ => Ok "$E2" |}.

(** No two distinct conversations of the store hold a turn with the same
    id, the empty id left aside. *)
Definition uniqueNamedOwner (cs : list Bot.Conversation) : Prop :=
  forall i j ci cj id,
    id <> "" ->
    cs !! i = Some ci -> cs !! j = Some cj ->
    Bot.holds id ci -> Bot.holds id cj -> i = j.

(** No conversation of the store holds a turn with this id. *)
Definition fresh (cs : list Bot.Conversation) (id : string) : Prop :=
  forall q cq, cs !! q = Some cq -> ~ Bot.holds id cq.


(** ** Growth of the store *)

(** The store [cs'] keeps every conversation of [cs] at its place, with the
    turns it had at the head of the turns it has. *)
Definition extends (cs cs' : list Bot.Conversation) : Prop :=
  length cs <= length cs' /\
  forall p, Bot.turnsAt cs p `prefix_of` Bot.turnsAt cs' p.

(** The number of turns the store holds, over all conversations. *)
Definition totalTurns (cs : list Bot.Conversation) : nat :=
  sum_list_with (fun c => length (Bot.Messages c)) cs.

(** An invite of this user: the state key names the user and the membership
    is an invite. *)
Definition addressed (user : string) (evt : Mautrix.Event) : Prop :=
  Mautrix.GetStateKey evt = user /\
  Mautrix.Membership (Mautrix.AsMember (Mautrix.Content_ evt))
    = Mautrix.MembershipInvite.

(** ** Start-up

    [Init] of both packages is a chain of calls into the libraries, each of
    which can fail.  The calls made are recorded in order; what a call
    answers is the [Host]'s. *)

Record ReqLogin := {
  LoginType : string;
  IdentifierType : string;
  IdentifierUser : string;
  LoginPassword : string
}.

Definition AuthTypePassword : string := "m.login.password".
Definition IdentifierTypeUser : string := "m.id.user".

Inductive Call :=
| ReadlineNew (prompt : string)
| ReadlineClose
| NewClient (homeserver userID accessToken : string)
| NewCryptoHelper (pickle dbPath : string)
| CryptoHelperInit (login : ReqLogin)
| CallNewGPT (key : string).

#[global] Instance ReqLogin_eq_dec : EqDecision ReqLogin.
Proof. solve_decision. Defined.

#[global] Instance Call_eq_dec : EqDecision Call.
Proof. solve_decision. Defined.

Record Host := {
  readlineNew : string -> GoResult unit;
  newClient : string -> string -> string -> GoResult unit;
  newCryptoHelper : string -> string -> GoResult unit;
  cryptoHelperInit : ReqLogin -> GoResult unit
}.

(** What the host answers to a call; the calls that cannot fail answer
    [Ok]. *)
Definition answer (h : Host) (c : Call) : GoResult unit :=
  match c with
  | ReadlineNew prompt => readlineNew h prompt
  | NewClient hs uid key => newClient h hs uid key
  | NewCryptoHelper pickle db => newCryptoHelper h pickle db
  | CryptoHelperInit login => cryptoHelperInit h login
  | ReadlineClose | CallNewGPT _ => Ok tt
  end.

(** [mautrix.Client], the fields [Init] and the handlers touch: the user id
    [NewClient] was given, and whether [Crypto] has been set. *)
Record Client := {
  cl_UserID : string;
  cl_Crypto : bool
}.

(** [cryptohelper.CryptoHelper], the field [Init] sets. *)
Record CryptoHelper := { LoginAs : option ReqLogin }.

(** [LoginAs] as both versions of [Init] build it. *)
Definition passwordLogin (user password : string) : ReqLogin :=
  {| LoginType := AuthTypePassword;
     IdentifierType := IdentifierTypeUser;
     IdentifierUser := user;
     LoginPassword := password |}.

(** *** Package [bot] *)
Module BotStartup.

Section WithGPT.

(** The completion client and its constructor [NewGPT], whose declarations
    are not among the sources. *)
Variable GPT : Type.
Variable NewGPT : string -> GPT.

(** The [Matrix] struct with its pointers: [nil] is [None]. *)
Record Instance := {
  config : Bot.Config;
  client : option Client;
  cryptoHelper : option CryptoHelper;
  conversations : list Bot.Conversation;
  gptClient : option GPT
}.

Definition New (cfg : Bot.Config) : Instance :=
  {| config := cfg; client := None; cryptoHelper := None;
     conversations := []; gptClient := None |}.

(** [Init], lines 42-74.  [mautrix.NewClient] makes the client of the user
    id it is given, with no crypto yet; [NewCryptoHelper] returns no helper
    with its error.  The result is the instance, the calls made and the
    error returned ([None] for nil).  The logger put on the client and the
    registration of the old-event ignorer are left out: they do not fail and
    nothing here reads them. *)
Definition Init (m : Instance) (h : Host)
  : Instance * list Call * option string :=
  let cfg := config m in
  let t0 := [ NewClient (Bot.Homeserver cfg) (Bot.UserID cfg)
                (Bot.UserAccessKey cfg) ] in
  match newClient h (Bot.Homeserver cfg) (Bot.UserID cfg)
          (Bot.UserAccessKey cfg) with
  | Err err => (m, t0, Some err)
  | Ok _ =>
      let cl := {| cl_UserID := Bot.UserID cfg; cl_Crypto := false |} in
      let t1 := t0 ++ [ NewCryptoHelper (Bot.Pickle cfg) (Bot.DBPath cfg) ] in
      match newCryptoHelper h (Bot.Pickle cfg) (Bot.DBPath cfg) with
      | Err err =>
          ({| config := cfg; client := Some cl; cryptoHelper := None;
              conversations := conversations m; gptClient := gptClient m |},
           t1, Some err)
      | Ok _ =>
          let login := passwordLogin (Bot.UserID cfg) (Bot.UserPassword cfg) in
          let helper := {| LoginAs := Some login |} in
          let t2 := t1 ++ [ CryptoHelperInit login ] in
          match cryptoHelperInit h login with
          | Err err =>
              ({| config := cfg; client := Some cl;
                  cryptoHelper := Some helper;
                  conversations := conversations m;
                  gptClient := gptClient m |},
               t2, Some err)
          | Ok _ =>
              ({| config := cfg;
                  client := Some {| cl_UserID := Bot.UserID cfg;
                                    cl_Crypto := true |};
                  cryptoHelper := Some helper;
                  conversations := [];
                  gptClient := Some (NewGPT (Bot.OpenAIKey cfg)) |},
               t2 ++ [ CallNewGPT (Bot.OpenAIKey cfg) ], None)
          end
      end
  end.

(** The bot as the handlers see it, once it has a client. *)
Definition running (m : Instance) : option Bot.Matrix :=
  match client m with
  | Some cl => Some {| Bot.config := config m;
                       Bot.client_UserID := cl_UserID cl;
                       Bot.conversations := conversations m |}
  | None => None
  end.

End WithGPT.

Arguments config {GPT} _.
Arguments client {GPT} _.
Arguments cryptoHelper {GPT} _.
Arguments conversations {GPT} _.
Arguments gptClient {GPT} _.
Arguments running {GPT} _.

End BotStartup.

(** *** Package [matrix] *)
Module MatrixPkgStartup.

(** [readline.Instance]: open until [Close] is called on it. *)
Record Readline := { closed : bool }.

Record Instance := {
  config : MatrixPkg.Config;
  readline : option Readline;
  client : option Client;
  cryptoHelper : option CryptoHelper
}.

Definition New (cfg : MatrixPkg.Config) : Instance :=
  {| config := cfg; readline := None; client := None; cryptoHelper := None |}.

(** [Init], lines 40-76.  It creates the readline and defers its [Close]:
    every return after the creation closes it.  The rest is as in package
    [bot], without the completion client and the store. *)
Definition Init (m : Instance) (h : Host)
  : Instance * list Call * option string :=
  let cfg := config m in
  let t0 := [ ReadlineNew "[no room]> " ] in
  match readlineNew h "[no room]> " with
  | Err err => (m, t0, Some err)
  | Ok _ =>
      let deferred := {| closed := true |} in
      let t1 := t0 ++ [ NewClient (MatrixPkg.Homeserver cfg)
                          (MatrixPkg.UserID cfg) (MatrixPkg.UserAccessKey cfg) ] in
      match newClient h (MatrixPkg.Homeserver cfg) (MatrixPkg.UserID cfg)
              (MatrixPkg.UserAccessKey cfg) with
      | Err err =>
          ({| config := cfg; readline := Some deferred; client := client m;
              cryptoHelper := cryptoHelper m |},
           t1 ++ [ ReadlineClose ], Some err)
      | Ok _ =>
          let cl := {| cl_UserID := MatrixPkg.UserID cfg; cl_Crypto := false |} in
          let t2 := t1 ++ [ NewCryptoHelper (MatrixPkg.Pickle cfg)
                              (MatrixPkg.DBPath cfg) ] in
          match newCryptoHelper h (MatrixPkg.Pickle cfg) (MatrixPkg.DBPath cfg) with
          | Err err =>
              ({| config := cfg; readline := Some deferred; client := Some cl;
                  cryptoHelper := None |},
               t2 ++ [ ReadlineClose ], Some err)
          | Ok _ =>
              let login := passwordLogin (MatrixPkg.UserID cfg)
                             (MatrixPkg.UserPassword cfg) in
              let helper := {| LoginAs := Some login |} in
              let t3 := t2 ++ [ CryptoHelperInit login ] in
              match cryptoHelperInit h login with
              | Err err =>
                  ({| config := cfg; readline := Some deferred;
                      client := Some cl; cryptoHelper := Some helper |},
                   t3 ++ [ ReadlineClose ], Some err)
              | Ok _ =>
                  ({| config := cfg; readline := Some deferred;
                      client := Some {| cl_UserID := MatrixPkg.UserID cfg;
                                        cl_Crypto := true |};
                      cryptoHelper := Some helper |},
                   t3 ++ [ ReadlineClose ], None)
              end
          end
      end
  end.

(** The bot as the handlers see it, once it has a client. *)
Definition running (m : Instance) : option MatrixPkg.Matrix :=
  match client m with
  | Some cl => Some {| MatrixPkg.config := config m;
                       MatrixPkg.client_UserID := cl_UserID cl |}
  | None => None
  end.

End MatrixPkgStartup.

(** A host where every call succeeds, and hosts where one step fails. *)
Definition hostUp : Host :=
  {| readlineNew := fun _ => Ok tt;
     newClient := fun _ _ _ => Ok tt;
     newCryptoHelper := fun _ _ => Ok tt;
     cryptoHelperInit := fun _ => Ok tt |}.

Definition hostNoStore : Host :=
  {| readlineNew := fun _ => Ok tt;
     newClient := fun _ _ _ => Ok tt;
     newCryptoHelper := fun _ _ => Err "unable to open database file";
     cryptoHelperInit := fun _ => Ok tt |}.

(** The started bot of the examples, holding the greeting thread. *)
Definition startedBot : BotStartup.Instance string :=
  {| BotStartup.config := botConfig;
     BotStartup.client := Some {| cl_UserID := "@bot:example.org";
                                  cl_Crypto := true |};
     BotStartup.cryptoHelper :=
       Some {| LoginAs := Some (passwordLogin "@bot:example.org" "pw") |};
     BotStartup.conversations := Bot.conversations greeted;
     BotStartup.gptClient := Some "sk" |}.

(** The same bot started again: the store is empty. *)
Definition startedBotAgain : BotStartup.Instance string :=
  {| BotStartup.config := botConfig;
     BotStartup.client := Some {| cl_UserID := "@bot:example.org";
                                  cl_Crypto := true |};
     BotStartup.cryptoHelper :=
       Some {| LoginAs := Some (passwordLogin "@bot:example.org" "pw") |};
     BotStartup.conversations := [];
     BotStartup.gptClient := Some "sk" |}.

(** A membership event that is not an invite of the bot. *)
Definition otherJoin : Mautrix.Event :=
  {| Mautrix.StateKey := Some "@carol:example.org";
     Mautrix.Sender := "@carol:example.org";
     Mautrix.Type_ := Mautrix.StateMember; Mautrix.ID := "$J1";
     Mautrix.RoomID := "!lounge:example.org";
     Mautrix.Content_ :=
       Mautrix.ParsedMember {| Mautrix.Membership := "join" |} |}.

(** ** The handler, case by case *)

Section RespondCases.

Variable R : string -> bool -> bool -> Mautrix.MessageEventContent.
Variables (m : Bot.Matrix) (w : Bot.W) (evt : Mautrix.Event).

Lemma respond_own :
  ownEvent m evt ->
  Bot.handle (Bot.RespondHandler R) m w evt = (m, [received evt]).
Proof.
  unfold ownEvent, Bot.handle, Bot.RespondHandler; cbn [snd]; intros Hown.
  rewrite Hown, String.eqb_refl. reflexivity.
Qed.

Lemma respond_other :
  ~ ownEvent m evt ->
  Bot.handle (Bot.RespondHandler R) m w evt =
  let m1 := Bot.set_conversations m (registered m evt) in
  let t1 := [received evt; Completion (pending m evt)] in
  match complete w (pending m evt) with
  | Err err => (m1, t1 ++ [Log Error [("error", err)] "OpenAI API returned with "])
  | Ok reply =>
      let out := outbound R evt reply in
      let t2 := t1 ++ [SendMessageEvent (Mautrix.RoomID evt) Mautrix.EventMessage out] in
      match sendMessage w (Mautrix.RoomID evt) Mautrix.EventMessage out with
      | Err err => (m1, t2 ++ [Log Error [("error", err)] "failed to send message"])
      | Ok sent =>
          (Bot.set_conversations m1
             (<[place m evt := Bot.Add (pending m evt) (assistantTurn evt sent reply)]>
                (registered m evt)),
           t2 ++ [Log Info [("message", Mautrix.Body out)] "Sent reply"])
      end
  end.
Proof.
  unfold ownEvent, Bot.handle, Bot.RespondHandler; cbn [snd]; intros Hother.
  destruct (String.eqb_spec (Mautrix.Sender evt) (Bot.UserID (Bot.config m)))
    as [E | _]; [contradiction |].
  cbn [negb]. unfold registered, place, pending, resolved.
  destruct (Bot.resolve _ _ _ _) as [[cs p] conv]; cbn [fst snd].
  destruct (complete w conv) as [reply | err]; [| reflexivity].
  fold (outbound R evt reply).
  destruct (sendMessage w _ _ _) as [sent | err]; reflexivity.
Qed.

End RespondCases.

(** ** The resolution step *)

Lemma find_lookup (cs : list Bot.Conversation) id p c :
  Bot.FindByEventID cs id = Some (p, c) ->
  cs !! p = Some c /\ Bot.holds id c /\
  forall q cq, cs !! q = Some cq -> q < p -> ~ Bot.holds id cq.
Proof. unfold Bot.FindByEventID. intros H. by apply list_find_Some in H. Qed.

Lemma resolve_found (cs : list Bot.Conversation) eventID parentID body p c :
  parentID <> "" ->
  Bot.FindByEventID cs parentID = Some (p, c) ->
  let u := {| Bot.EventID := eventID; Bot.ParentID := parentID;
              Bot.Role := OpenAI.ChatMessageRoleUser; Bot.Content := body |} in
  Bot.resolve cs eventID parentID body = (<[p := Bot.Add c u]> cs, p, Bot.Add c u).
Proof.
  intros Hne Hfind. unfold Bot.resolve.
  destruct (String.eqb_spec parentID "") as [E | _]; [contradiction |].
  cbn [negb]. rewrite Hfind. reflexivity.
Qed.

Lemma resolve_new (cs : list Bot.Conversation) eventID parentID body :
  parentID = "" \/ Bot.FindByEventID cs parentID = None ->
  Bot.resolve cs eventID parentID body =
  (cs ++ [Bot.NewConversation body], length cs, Bot.NewConversation body).
Proof.
  intros H. unfold Bot.resolve.
  destruct (String.eqb_spec parentID "") as [E | Hne]; cbn [negb].
  - reflexivity.
  - destruct H as [E | Hnone]; [contradiction |]. rewrite Hnone. reflexivity.
Qed.

Lemma turnsAt_lookup (cs : list Bot.Conversation) p c :
  cs !! p = Some c -> Bot.turnsAt cs p = Bot.Messages c.
Proof. unfold Bot.turnsAt. by intros ->. Qed.

Lemma turnsAt_beyond (cs : list Bot.Conversation) p :
  length cs <= p -> Bot.turnsAt cs p = [].
Proof.
  intros H. unfold Bot.turnsAt. by rewrite (lookup_ge_None_2 cs p).
Qed.

(** Whichever way the resolution goes, the store gains one user turn with
    the event's body, in the conversation the handler goes on with. *)
Lemma resolve_gains (cs : list Bot.Conversation) eventID parentID body :
  forall cs' p c', Bot.resolve cs eventID parentID body = (cs', p, c') ->
  cs' !! p = Some c' /\
  exists u, Bot.Messages c' = Bot.turnsAt cs p ++ [u] /\
            gains cs cs' p [u] /\
            Bot.Role u = OpenAI.ChatMessageRoleUser /\
            Bot.Content u = body /\
            (is_Some (cs !! p) ->
             u = {| Bot.EventID := eventID; Bot.ParentID := parentID;
                    Bot.Role := OpenAI.ChatMessageRoleUser;
                    Bot.Content := body |}).
Proof.
  intros cs' p c'. unfold Bot.resolve.
  destruct (if negb (parentID =? "")%string
            then Bot.FindByEventID cs parentID else None)
    as [[p0 c0] |] eqn:Hconv.
  - assert (Hfind : Bot.FindByEventID cs parentID = Some (p0, c0)).
    { destruct (negb (parentID =? "")%string); [done | discriminate]. }
    apply find_lookup in Hfind as (Hp0 & _ & _).
    intros [= <- <- <-].
    assert (Hlt : p0 < length cs) by (by eapply lookup_lt_Some).
    split; [by apply list_lookup_insert_eq |].
    exists {| Bot.EventID := eventID; Bot.ParentID := parentID;
              Bot.Role := OpenAI.ChatMessageRoleUser; Bot.Content := body |}.
    split; [| split; [| split; [| split]]]; [| | reflexivity | reflexivity |].
    + cbn. by rewrite (turnsAt_lookup cs p0 c0).
    + split.
      * rewrite (turnsAt_lookup (<[p0:=_]> cs) p0 _ (list_lookup_insert_eq _ _ _ Hlt)).
        cbn. by rewrite (turnsAt_lookup cs p0 c0).
      * intros q Hq. by apply list_lookup_insert_ne.
    + done.
  - intros [= <- <- <-].
    split; [by apply list_lookup_middle |].
    exists {| Bot.EventID := ""; Bot.ParentID := "";
              Bot.Role := OpenAI.ChatMessageRoleUser; Bot.Content := body |}.
    split; [| split; [| split; [| split]]]; [| | reflexivity | reflexivity |].
    + by rewrite turnsAt_beyond.
    + split.
      * rewrite (turnsAt_lookup (cs ++ [Bot.NewConversation body]) (length cs)
                   (Bot.NewConversation body)) by (by apply list_lookup_middle).
        by rewrite turnsAt_beyond.
      * intros q Hq. destruct (decide (q < length cs)) as [Hlt | Hge].
        -- by apply lookup_app_l.
        -- rewrite !lookup_ge_None_2; [done | lia |].
           rewrite length_app; cbn; lia.
    + intros [c Hc]. apply lookup_lt_Some in Hc. lia.
Qed.

(** Recording one more turn in the conversation the handler works on. *)
Lemma gains_add (cs cs1 : list Bot.Conversation) p c1 u a :
  cs1 !! p = Some c1 ->
  Bot.Messages c1 = Bot.turnsAt cs p ++ [u] ->
  gains cs cs1 p [u] ->
  gains cs (<[p := Bot.Add c1 a]> cs1) p [u; a].
Proof.
  intros Hp Hc1 [_ Hother].
  assert (Hlt : p < length cs1) by (by eapply lookup_lt_Some).
  split.
  - rewrite (turnsAt_lookup _ p _ (list_lookup_insert_eq _ _ _ Hlt)).
    cbn. rewrite Hc1, <- app_assoc. reflexivity.
  - intros q Hq. rewrite list_lookup_insert_ne by done. by apply Hother.
Qed.

Lemma resolved_gains (m : Bot.Matrix) (evt : Mautrix.Event) :
  registered m evt !! place m evt = Some (pending m evt) /\
  exists u, Bot.Messages (pending m evt) =
              Bot.turnsAt (Bot.conversations m) (place m evt) ++ [u] /\
            gains (Bot.conversations m) (registered m evt) (place m evt) [u] /\
            Bot.Role u = OpenAI.ChatMessageRoleUser /\
            Bot.Content u = Mautrix.Body (Mautrix.AsMessage (Mautrix.Content_ evt)) /\
            (is_Some (Bot.conversations m !! place m evt) -> u = userTurn evt).
Proof.
  unfold registered, place, pending, resolved.
  destruct (Bot.resolve _ _ _ _) as [[cs' p] c'] eqn:Hres; cbn [fst snd].
  by apply resolve_gains in Hres.
Qed.

(** ** The properties of the message handler *)

(** C4: an event whose sender is the bot's own identity is dropped: the
    handler makes no completion request and no send, and the store is what it
    was.  The sender's identity alone decides it: whatever the content, the
    completion request is skipped exactly when the sender is the bot.  This
    holds of both versions of the handler. *)
Theorem self_echo_suppressed
    (R : string -> bool -> bool -> Mautrix.MessageEventContent)
    (m : Bot.Matrix) (w : Bot.W) (m0 : MatrixPkg.Matrix) (w0 : MatrixPkg.W)
    (evt : Mautrix.Event) :
  let '(m', t) := Bot.handle (Bot.RespondHandler R) m w evt in
  let '(t0, end0) := MatrixPkg.handle (MatrixPkg.RespondHandler R) m0 w0 evt in
  (ownEvent m evt <-> completions t = []) /\
  (ownEvent m evt -> m' = m /\ sends t = []) /\
  (Mautrix.Sender evt = MatrixPkg.UserID (MatrixPkg.config m0) <->
   completions t0 = []) /\
  (Mautrix.Sender evt = MatrixPkg.UserID (MatrixPkg.config m0) ->
   sends t0 = [] /\ end0 = MatrixPkg.Returned).
Proof.
  destruct (Bot.handle _ m w evt) as [m' t] eqn:Hbot.
  destruct (MatrixPkg.handle _ m0 w0 evt) as [t0 end0] eqn:Hpkg.
  assert (Hb : (ownEvent m evt <-> completions t = []) /\
               (ownEvent m evt -> m' = m /\ sends t = [])).
  { destruct (string_dec (Mautrix.Sender evt) (Bot.UserID (Bot.config m)))
      as [Hown | Hother]; fold (ownEvent m evt) in *.
    - rewrite respond_own in Hbot by done. injection Hbot as <- <-.
      split; [split |]; done.
    - rewrite respond_other in Hbot by done. cbn zeta in Hbot.
      split; [| done]. split; [done |]. intros Hnone. exfalso.
      destruct (complete w _); [destruct (sendMessage w _ _ _) |];
        injection Hbot as <- <-; discriminate Hnone. }
  split; [apply Hb | split; [apply Hb |]].
  unfold MatrixPkg.handle, MatrixPkg.RespondHandler in Hpkg; cbn [snd] in Hpkg.
  destruct (String.eqb_spec (Mautrix.Sender evt)
              (MatrixPkg.UserID (MatrixPkg.config m0))) as [E | Hne];
    cbn [negb] in Hpkg.
  - injection Hpkg as <- <-. split; [split |]; done.
  - split; [| done]. split; [done |]. intros Hnone. exfalso.
    destruct (complete w0 _) as [resp | err];
      [destruct (index _ _) |]; injection Hpkg as <- <-; discriminate Hnone.
Qed.

(** The suppression at work: the echo of the bot's own reply. *)
Lemma self_echo_suppressed_witness :
  ownEvent greeted (textEvent "@bot:example.org" "$E2" "Hello there!" (Some "$E1")) /\
  fst (Bot.handle (Bot.RespondHandler plainText) greeted
         (answering "again" "$E9")
         (textEvent "@bot:example.org" "$E2" "Hello there!" (Some "$E1")))
  = greeted.
Proof.
  split; [reflexivity |].
  pose proof (self_echo_suppressed plainText greeted (answering "again" "$E9")
                legacyBot legacyDown
                (textEvent "@bot:example.org" "$E2" "Hello there!" (Some "$E1")))
    as H.
  destruct (Bot.handle _ _ _ _) as [m' t].
  destruct (MatrixPkg.handle _ _ _ _) as [t0 end0].
  destruct H as (_ & H & _). cbn [fst]. apply H. reflexivity.
Defined.

(** C1, as the code has it: when the completion call fails, nothing is sent
    and no assistant turn is recorded; the store is what it was when the
    completion request was made.  The conversation the event belongs to holds
    the turns it had before the event arrived followed by the event's one
    user turn (that turn alone in a new conversation), and every other
    conversation is what it was. *)
Theorem completion_failure_keeps_user_turn
    (R : string -> bool -> bool -> Mautrix.MessageEventContent)
    (m : Bot.Matrix) (w : Bot.W) (evt : Mautrix.Event) (err : string) :
  ~ ownEvent m evt ->
  complete w (pending m evt) = Err err ->
  let '(m', t) := Bot.handle (Bot.RespondHandler R) m w evt in
  m' = Bot.set_conversations m (registered m evt) /\
  sends t = [] /\
  exists u,
    gains (Bot.conversations m) (Bot.conversations m') (place m evt) [u] /\
    Bot.Role u = OpenAI.ChatMessageRoleUser /\
    Bot.Content u = Mautrix.Body (Mautrix.AsMessage (Mautrix.Content_ evt)).
Proof.
  intros Hother Hfail. rewrite respond_other by done. cbn zeta. rewrite Hfail.
  split; [reflexivity | split; [reflexivity |]].
  destruct (resolved_gains m evt) as (_ & u & _ & Hg & Hrole & Hbody & _).
  exists u. done.
Qed.

Lemma completion_failure_keeps_user_turn_witness :
  ~ ownEvent greeted howAreYou /\
  complete completionDown (pending greeted howAreYou) = Err "status code: 503" /\
  Bot.turnsAt
    (Bot.conversations
       (fst (Bot.handle (Bot.RespondHandler plainText) greeted completionDown
               howAreYou))) 0
  = Bot.turnsAt (Bot.conversations greeted) 0 ++ [userTurn howAreYou].
Proof.
  assert (Hother : ~ ownEvent greeted howAreYou) by (vm_compute; discriminate).
  assert (Hfail : complete completionDown (pending greeted howAreYou)
                  = Err "status code: 503") by reflexivity.
  split; [exact Hother | split; [exact Hfail |]].
  pose proof (completion_failure_keeps_user_turn plainText greeted
                completionDown howAreYou _ Hother Hfail) as H.
  destruct (Bot.handle _ _ _ _) as [m' t].
  destruct H as (-> & _ & _). reflexivity.
Defined.

(** C1 as it is written fails: the user turn recorded before the completion
    call is still there after the call has failed. *)
Lemma completion_failure_not_rolled_back :
  let m' := fst (Bot.handle (Bot.RespondHandler plainText) greeted
                   completionDown howAreYou) in
  ~ ownEvent greeted howAreYou /\
  complete completionDown (pending greeted howAreYou) = Err "status code: 503" /\
  length (Bot.turnsAt (Bot.conversations greeted) 0) = 2 /\
  length (Bot.turnsAt (Bot.conversations m') 0) = 3 /\
  Bot.conversations m' <> Bot.conversations greeted.
Proof.
  cbn zeta. split; [vm_compute; discriminate |].
  split; [reflexivity |]. split; [reflexivity |]. split; [reflexivity |].
  vm_compute. discriminate.
Qed.

(** C5: when the completion and the send both succeed, the conversation the
    event belongs to gains exactly two turns, in this order: the user turn,
    with the event's body, and the assistant turn, whose id is the sent
    event's id, whose parent is the inbound event's id and whose content is
    the reply.  Nothing else in the store changes.  In a conversation that
    was already there the user turn carries the event's id and parent. *)
Theorem success_records_user_then_assistant
    (R : string -> bool -> bool -> Mautrix.MessageEventContent)
    (m : Bot.Matrix) (w : Bot.W) (evt : Mautrix.Event) (reply sent : string) :
  ~ ownEvent m evt ->
  complete w (pending m evt) = Ok reply ->
  sendMessage w (Mautrix.RoomID evt) Mautrix.EventMessage (outbound R evt reply)
    = Ok sent ->
  let '(m', t) := Bot.handle (Bot.RespondHandler R) m w evt in
  exists u,
    gains (Bot.conversations m) (Bot.conversations m') (place m evt)
      [ u;
        {| Bot.EventID := sent; Bot.ParentID := Mautrix.ID evt;
           Bot.Role := OpenAI.ChatMessageRoleAssistant;
           Bot.Content := reply |} ] /\
    Bot.Role u = OpenAI.ChatMessageRoleUser /\
    Bot.Content u = Mautrix.Body (Mautrix.AsMessage (Mautrix.Content_ evt)) /\
    (is_Some (Bot.conversations m !! place m evt) -> u = userTurn evt).
Proof.
  intros Hother Hreply Hsent. rewrite respond_other by done. cbn zeta.
  rewrite Hreply, Hsent.
  destruct (resolved_gains m evt) as (Hp & u & Hmsgs & Hg & Hrole & Hbody & Hu).
  exists u. split; [| done]. cbn [Bot.conversations Bot.set_conversations].
  by apply gains_add.
Qed.

Lemma success_records_user_then_assistant_witness :
  ~ ownEvent greeted howAreYou /\
  complete (answering "Fine, thanks." "$E4") (pending greeted howAreYou)
    = Ok "Fine, thanks." /\
  sendMessage (answering "Fine, thanks." "$E4") (Mautrix.RoomID howAreYou)
    Mautrix.EventMessage (outbound plainText howAreYou "Fine, thanks.")
    = Ok "$E4" /\
  Bot.turnsAt
    (Bot.conversations
       (fst (Bot.handle (Bot.RespondHandler plainText) greeted
               (answering "Fine, thanks." "$E4") howAreYou))) 0
  = Bot.turnsAt (Bot.conversations greeted) 0 ++
    [ userTurn howAreYou; assistantTurn howAreYou "$E4" "Fine, thanks." ].
Proof.
  assert (Hother : ~ ownEvent greeted howAreYou) by (vm_compute; discriminate).
  split; [exact Hother | split; [reflexivity | split; [reflexivity |]]].
  pose proof (success_records_user_then_assistant plainText greeted
                (answering "Fine, thanks." "$E4") howAreYou _ _ Hother
                eq_refl eq_refl) as H.
  destruct (Bot.handle _ _ _ _) as [m' t].
  destruct H as (u & [Hturns _] & _ & _ & Hu).
  cbn [fst]. change (place greeted howAreYou) with 0 in *.
  rewrite Hturns, (Hu (mk_is_Some _ _ eq_refl)). reflexivity.
Defined.

(** C7: when the completion succeeds and the send fails, the reply is
    dropped: the send is tried once, the bot's state is what it was when the
    completion request was made (it does not depend on the reply), and so the
    conversation the event belongs to has gained the one user turn and no
    assistant turn: its turn count has grown by one, not two. *)
Theorem send_failure_drops_reply
    (R : string -> bool -> bool -> Mautrix.MessageEventContent)
    (m : Bot.Matrix) (w : Bot.W) (evt : Mautrix.Event) (reply err : string) :
  ~ ownEvent m evt ->
  complete w (pending m evt) = Ok reply ->
  sendMessage w (Mautrix.RoomID evt) Mautrix.EventMessage (outbound R evt reply)
    = Err err ->
  let '(m', t) := Bot.handle (Bot.RespondHandler R) m w evt in
  m' = Bot.set_conversations m (registered m evt) /\
  sends t = [ SendMessageEvent (Mautrix.RoomID evt) Mautrix.EventMessage
                (outbound R evt reply) ] /\
  length (Bot.turnsAt (Bot.conversations m') (place m evt))
    = length (Bot.turnsAt (Bot.conversations m) (place m evt)) + 1 /\
  exists u,
    gains (Bot.conversations m) (Bot.conversations m') (place m evt) [u] /\
    Bot.Role u = OpenAI.ChatMessageRoleUser /\
    Bot.Content u = Mautrix.Body (Mautrix.AsMessage (Mautrix.Content_ evt)).
Proof.
  intros Hother Hreply Hsend. rewrite respond_other by done. cbn zeta.
  rewrite Hreply, Hsend.
  destruct (resolved_gains m evt) as (_ & u & _ & Hg & Hrole & Hbody & _).
  split; [reflexivity | split; [reflexivity |]].
  cbn [Bot.conversations Bot.set_conversations]. split.
  - destruct Hg as [-> _]. rewrite length_app. reflexivity.
  - exists u. done.
Qed.

Lemma send_failure_drops_reply_witness :
  ~ ownEvent greeted howAreYou /\
  complete (sendDown "Fine, thanks.") (pending greeted howAreYou)
    = Ok "Fine, thanks." /\
  sendMessage (sendDown "Fine, thanks.") (Mautrix.RoomID howAreYou)
    Mautrix.EventMessage (outbound plainText howAreYou "Fine, thanks.")
    = Err "M_FORBIDDEN" /\
  Bot.turnsAt
    (Bot.conversations
       (fst (Bot.handle (Bot.RespondHandler plainText) greeted
               (sendDown "Fine, thanks.") howAreYou))) 0
  = Bot.turnsAt (Bot.conversations greeted) 0 ++ [userTurn howAreYou].
Proof.
  assert (Hother : ~ ownEvent greeted howAreYou) by (vm_compute; discriminate).
  split; [exact Hother | split; [reflexivity | split; [reflexivity |]]].
  pose proof (send_failure_drops_reply plainText greeted
                (sendDown "Fine, thanks.") howAreYou _ _ Hother
                eq_refl eq_refl) as H.
  destruct (Bot.handle _ _ _ _) as [m' t].
  destruct H as (-> & _ & _). reflexivity.
Defined.

(** Whatever the collaborators answer, an event of somebody else leaves its
    user turn, and at most the assistant turn after it, in the conversation
    it was resolved to. *)
Lemma respond_other_gains
    (R : string -> bool -> bool -> Mautrix.MessageEventContent)
    (m : Bot.Matrix) (w : Bot.W) (evt : Mautrix.Event) :
  ~ ownEvent m evt ->
  let '(m', t) := Bot.handle (Bot.RespondHandler R) m w evt in
  completions t = [Completion (pending m evt)] /\
  exists u rest,
    Bot.Messages (pending m evt)
      = Bot.turnsAt (Bot.conversations m) (place m evt) ++ [u] /\
    gains (Bot.conversations m) (Bot.conversations m') (place m evt) (u :: rest) /\
    is_Some (Bot.conversations m' !! place m evt) /\
    length (Bot.conversations m') = length (registered m evt) /\
    (rest = [] \/ exists sent reply, rest = [assistantTurn evt sent reply]).
Proof.
  intros Hother. rewrite respond_other by done. cbn zeta.
  destruct (resolved_gains m evt) as (Hp & u & Hmsgs & Hg & _).
  assert (Hlt : place m evt < length (registered m evt))
    by (by eapply lookup_lt_Some).
  destruct (complete w _) as [reply | err];
    [destruct (sendMessage w _ _ _) as [sent | err] |];
    (split; [reflexivity |]); cbn [Bot.conversations Bot.set_conversations].
  - exists u, [assistantTurn evt sent reply].
    split; [done |]. split; [by apply gains_add |].
    split; [| split; [by rewrite length_insert | right; by do 2 eexists]].
    rewrite list_lookup_insert_eq by done. by eexists.
  - exists u, []. split; [done |]. split; [done |].
    split; [by eexists | split; [done | by left]].
  - exists u, []. split; [done |]. split; [done |].
    split; [by eexists | split; [done | by left]].
Qed.

(** The lookup finds a conversation that holds the id when no conversation
    before it does. *)
Lemma find_first (cs : list Bot.Conversation) id p c :
  cs !! p = Some c -> Bot.holds id c ->
  (forall q cq, cs !! q = Some cq -> q < p -> ~ Bot.holds id cq) ->
  Bot.FindByEventID cs id = Some (p, c).
Proof. intros. unfold Bot.FindByEventID. by apply list_find_Some. Qed.

(** A reply whose parent the lookup finds: the user turn, with the event's
    id, parent and body, goes to the end of the conversation the lookup
    returns, with at most the assistant turn of the reply after it; and when
    no conversation before that one holds a turn with the event's id, a
    lookup of the event's id returns it afterwards. *)
Lemma reply_joins_first_holder
    (R : string -> bool -> bool -> Mautrix.MessageEventContent)
    (m : Bot.Matrix) (w : Bot.W) (evt : Mautrix.Event)
    (p : nat) (c : Bot.Conversation) :
  ~ ownEvent m evt ->
  Bot.replyParent (Mautrix.AsMessage (Mautrix.Content_ evt)) <> "" ->
  Bot.FindByEventID (Bot.conversations m)
    (Bot.replyParent (Mautrix.AsMessage (Mautrix.Content_ evt))) = Some (p, c) ->
  let '(m', t) := Bot.handle (Bot.RespondHandler R) m w evt in
  (exists rest,
     (rest = [] \/ exists sent reply, rest = [assistantTurn evt sent reply]) /\
     gains (Bot.conversations m) (Bot.conversations m') p (userTurn evt :: rest) /\
     Bot.turnsAt (Bot.conversations m') p = Bot.Messages c ++ userTurn evt :: rest) /\
  ((forall q cq, Bot.conversations m !! q = Some cq -> q < p ->
                 ~ Bot.holds (Mautrix.ID evt) cq) ->
   exists c', Bot.FindByEventID (Bot.conversations m') (Mautrix.ID evt)
              = Some (p, c')).
Proof.
  intros Hother Hparent Hfind.
  pose proof (respond_other_gains R m w evt Hother) as H.
  destruct (Bot.handle _ _ _ _) as [m' t].
  destruct H as (_ & u & rest & Hmsgs & Hg & [c' Hc'] & _ & Hrest).
  pose proof (resolve_found (Bot.conversations m) (Mautrix.ID evt) _
                (Mautrix.Body (Mautrix.AsMessage (Mautrix.Content_ evt)))
                p c Hparent Hfind) as Hres.
  cbn zeta in Hres. fold (userTurn evt) in Hres.
  assert (Hplace : place m evt = p).
  { unfold place, resolved. by rewrite Hres. }
  assert (Hpend : pending m evt = Bot.Add c (userTurn evt)).
  { unfold pending, resolved. by rewrite Hres. }
  rewrite Hplace in *. rewrite Hpend in Hmsgs.
  apply find_lookup in Hfind as (Hp & _ & _).
  rewrite (turnsAt_lookup _ _ _ Hp) in Hmsgs. cbn in Hmsgs.
  apply app_inj_tail in Hmsgs as [_ <-].
  assert (Hturns : Bot.turnsAt (Bot.conversations m') p
                   = Bot.Messages c ++ userTurn evt :: rest).
  { destruct Hg as [-> _]. by rewrite (turnsAt_lookup _ _ _ Hp). }
  split; [by exists rest |].
  intros Hfresh. exists c'. apply find_first; [done | |].
  - unfold Bot.holds. rewrite <- (turnsAt_lookup _ _ _ Hc'), Hturns.
    rewrite fmap_app, fmap_cons. apply elem_of_app. right. by left.
  - intros q cq Hq Hlt. destruct Hg as [_ Hsame].
    rewrite Hsame in Hq by lia. by eapply Hfresh.
Qed.

(** Stores and ids to run the statements on. *)
Lemma fresh_decided (cs : list Bot.Conversation) (id : string) :
  Forall (fun c => ~ Bot.holds id c) cs -> fresh cs id.
Proof.
  intros Hall q cq Hq. eapply Forall_lookup_1 in Hall; [exact Hall | exact Hq].
Qed.

Lemma one_conversation_owns_its_ids (c : Bot.Conversation) :
  uniqueNamedOwner [c].
Proof.
  intros i j ci cj id _ Hi Hj _ _.
  apply lookup_lt_Some in Hi, Hj. cbn in Hi, Hj. lia.
Qed.

(** C2: an inbound event that passes the sender filter and whose non-empty
    parent id is the id of a turn held in a conversation [C] of the store
    has its user turn, with the event's id, its parent id, the user role and
    the event's body, added at the end of [C], with at most the assistant
    turn of the reply after it; and a lookup of the event's id then returns
    [C].  The ids are the protocol's: each named id of the store has one
    owner, and the event's id is new to the store. *)
Theorem reply_is_appended_to_its_thread
    (R : string -> bool -> bool -> Mautrix.MessageEventContent)
    (m : Bot.Matrix) (w : Bot.W) (evt : Mautrix.Event)
    (p : nat) (c : Bot.Conversation) :
  ~ ownEvent m evt ->
  Bot.replyParent (Mautrix.AsMessage (Mautrix.Content_ evt)) <> "" ->
  uniqueNamedOwner (Bot.conversations m) ->
  fresh (Bot.conversations m) (Mautrix.ID evt) ->
  Bot.conversations m !! p = Some c ->
  Bot.holds (Bot.replyParent (Mautrix.AsMessage (Mautrix.Content_ evt))) c ->
  let '(m', t) := Bot.handle (Bot.RespondHandler R) m w evt in
  (exists rest,
     (rest = [] \/ exists sent reply, rest = [assistantTurn evt sent reply]) /\
     gains (Bot.conversations m) (Bot.conversations m') p (userTurn evt :: rest) /\
     Bot.turnsAt (Bot.conversations m') p = Bot.Messages c ++ userTurn evt :: rest) /\
  exists c', Bot.FindByEventID (Bot.conversations m') (Mautrix.ID evt)
             = Some (p, c').
Proof.
  intros Hother Hparent Huniq Hfresh Hp Hholds.
  destruct (list_find_elem_of
              (Bot.holds (Bot.replyParent
                            (Mautrix.AsMessage (Mautrix.Content_ evt))))
              (Bot.conversations m) c) as [[p0 c0] Hfind];
    [by eapply list_elem_of_lookup_2 | exact Hholds |].
  fold (Bot.FindByEventID (Bot.conversations m)
          (Bot.replyParent (Mautrix.AsMessage (Mautrix.Content_ evt))))
    in Hfind.
  destruct (find_lookup _ _ _ _ Hfind) as (Hp0 & Hholds0 & _).
  assert (p0 = p) as -> by (by eapply (Huniq p0 p c0 c)).
  assert (c0 = c) as -> by congruence.
  pose proof (reply_joins_first_holder R m w evt p c Hother Hparent Hfind) as H.
  destruct (Bot.handle _ _ _ _) as [m' t].
  destruct H as [Hturn Hlookup]. split; [exact Hturn |].
  apply Hlookup. intros q cq Hq _. by eapply Hfresh.
Qed.

Lemma reply_is_appended_to_its_thread_witness :
  ~ ownEvent greeted howAreYou /\
  Bot.replyParent (Mautrix.AsMessage (Mautrix.Content_ howAreYou)) <> "" /\
  uniqueNamedOwner (Bot.conversations greeted) /\
  fresh (Bot.conversations greeted) (Mautrix.ID howAreYou) /\
  (exists c, Bot.conversations greeted !! 0 = Some c /\
             Bot.holds (Bot.replyParent
                          (Mautrix.AsMessage (Mautrix.Content_ howAreYou))) c) /\
  exists c', Bot.FindByEventID
               (Bot.conversations
                  (fst (Bot.handle (Bot.RespondHandler plainText) greeted
                          (answering "Fine, thanks." "$E4") howAreYou)))
               (Mautrix.ID howAreYou)
             = Some (0, c').
Proof.
  assert (Hother : ~ ownEvent greeted howAreYou) by (vm_compute; discriminate).
  assert (Hparent : Bot.replyParent (Mautrix.AsMessage (Mautrix.Content_ howAreYou))
                    <> "") by (vm_compute; discriminate).
  assert (Huniq : uniqueNamedOwner (Bot.conversations greeted))
    by apply one_conversation_owns_its_ids.
  assert (Hfresh : fresh (Bot.conversations greeted) (Mautrix.ID howAreYou)).
  { apply fresh_decided. apply (bool_decide_unpack _). by vm_compute. }
  assert (Hholds : Bot.holds
                     (Bot.replyParent
                        (Mautrix.AsMessage (Mautrix.Content_ howAreYou)))
                     {| Bot.Messages := Bot.turnsAt (Bot.conversations greeted) 0 |}).
  { apply (bool_decide_unpack _). by vm_compute. }
  split; [exact Hother | split; [exact Hparent |]].
  split; [exact Huniq | split; [exact Hfresh |]].
  split; [eexists; split; [reflexivity | exact Hholds] |].
  pose proof (reply_is_appended_to_its_thread plainText greeted
                (answering "Fine, thanks." "$E4") howAreYou 0 _
                Hother Hparent Huniq Hfresh eq_refl Hholds) as H.
  destruct (Bot.handle _ _ _ _) as [m' t].
  destruct H as [_ H]. exact H.
Defined.

(** An event of somebody else whose parent id is empty or is not found gets
    a new conversation, registered at the end of the store, with exactly one
    turn, a user turn with the event's body; the completion request is made
    on that one-turn conversation, and the conversations that were there are
    what they were. *)
Lemma new_conversation_registered
    (R : string -> bool -> bool -> Mautrix.MessageEventContent)
    (m : Bot.Matrix) (w : Bot.W) (evt : Mautrix.Event) :
  ~ ownEvent m evt ->
  Bot.replyParent (Mautrix.AsMessage (Mautrix.Content_ evt)) = "" \/
  Bot.FindByEventID (Bot.conversations m)
    (Bot.replyParent (Mautrix.AsMessage (Mautrix.Content_ evt))) = None ->
  let '(m', t) := Bot.handle (Bot.RespondHandler R) m w evt in
  exists u,
    Bot.Messages (pending m evt) = [u] /\
    Bot.Role u = OpenAI.ChatMessageRoleUser /\
    Bot.Content u = Mautrix.Body (Mautrix.AsMessage (Mautrix.Content_ evt)) /\
    registered m evt = Bot.conversations m ++ [pending m evt] /\
    completions t = [Completion (pending m evt)] /\
    length (Bot.conversations m') = S (length (Bot.conversations m)) /\
    exists rest,
      (rest = [] \/ exists sent reply, rest = [assistantTurn evt sent reply]) /\
      gains (Bot.conversations m) (Bot.conversations m')
        (length (Bot.conversations m)) (u :: rest).
Proof.
  intros Hother Hnew.
  pose proof (respond_other_gains R m w evt Hother) as H.
  destruct (Bot.handle _ _ _ _) as [m' t].
  destruct H as (Hcompl & u & rest & Hmsgs & Hg & _ & Hlen & Hrest).
  pose proof (resolve_new (Bot.conversations m) (Mautrix.ID evt) _
                (Mautrix.Body (Mautrix.AsMessage (Mautrix.Content_ evt)))
                Hnew) as Hres.
  assert (Hplace : place m evt = length (Bot.conversations m)).
  { unfold place, resolved. by rewrite Hres. }
  assert (Hpend : pending m evt = Bot.NewConversation
                    (Mautrix.Body (Mautrix.AsMessage (Mautrix.Content_ evt)))).
  { unfold pending, resolved. by rewrite Hres. }
  assert (Hreg : registered m evt = Bot.conversations m ++ [pending m evt]).
  { rewrite Hpend. unfold registered, resolved. by rewrite Hres. }
  rewrite Hplace in *. rewrite turnsAt_beyond in Hmsgs by done.
  exists u. split; [exact Hmsgs |].
  assert (Hu : [u] = Bot.Messages (Bot.NewConversation
                 (Mautrix.Body (Mautrix.AsMessage (Mautrix.Content_ evt)))))
    by (by rewrite <- Hpend, Hmsgs).
  injection Hu as ->.
  split; [reflexivity | split; [reflexivity |]].
  split; [exact Hreg | split; [exact Hcompl |]].
  split; [| by exists rest].
  rewrite Hlen, Hreg, length_app. cbn. lia.
Qed.

(** C3 at a first message: the conversation created for it holds one turn,
    with the event's body, before the completion runs, but the id of that
    turn is empty and not the event's: [NewConversation] is given the body
    alone, where the other path records [EventID: eventID].  The id is still
    missing after the event has been answered, so a reply to the event
    itself is not found. *)
Theorem seed_turn_id_is_left_blank :
  let m' := fst (Bot.handle (Bot.RespondHandler plainText) emptyBot
                   (answering "Hello there!" "$E2") hello) in
  ~ ownEvent emptyBot hello /\
  Bot.replyParent (Mautrix.AsMessage (Mautrix.Content_ hello)) = "" /\
  Mautrix.ID hello = "$E1" /\
  Bot.Messages (pending emptyBot hello)
  = [ {| Bot.EventID := ""; Bot.ParentID := "";
         Bot.Role := OpenAI.ChatMessageRoleUser; Bot.Content := "Hello" |} ] /\
  (Bot.EventID <$> Bot.turnsAt (Bot.conversations m') 0) = [""; "$E2"] /\
  Bot.FindByEventID (Bot.conversations m') (Mautrix.ID hello) = None.
Proof.
  cbn zeta. split; [vm_compute; discriminate |].
  split; [reflexivity |]. split; [reflexivity |]. split; [reflexivity |].
  split; [reflexivity |]. by vm_compute.
Qed.

(** C9: an invite whose state key is the bot's own identity makes the bot
    call the join of that room, once, whatever the room and the inviter.
    When the join fails, the failure is logged as an error with the room and
    the inviter, no second join is tried, the bot has entered no room, its
    state is what it was, and the handler returns: the sync loop goes on with
    the events that follow.  This holds of both versions of the handler. *)
Theorem invite_join_failure_logged
    (R : string -> bool -> bool -> Mautrix.MessageEventContent)
    (evt : Mautrix.Event) (err : string) :
  Mautrix.Membership (Mautrix.AsMember (Mautrix.Content_ evt))
    = Mautrix.MembershipInvite ->
  (forall (m : Bot.Matrix) (w : Bot.W),
     Mautrix.GetStateKey evt = Bot.client_UserID m ->
     let '(m', t) := Bot.handle Bot.InviteHandler m w evt in
     joins t = [JoinRoomByID (Mautrix.RoomID evt)] /\
     (joinRoom w (Mautrix.RoomID evt) = Err err ->
      m' = m /\
      t = [ JoinRoomByID (Mautrix.RoomID evt);
            Log Error [("error", err); ("room_id", Mautrix.RoomID evt);
                       ("inviter", Mautrix.Sender evt)]
              "Failed to join room after invite" ] /\
      joined w t = [] /\
      (Mautrix.Type_ evt = Mautrix.StateMember ->
       forall rest,
         Bot.Sync (handlers R) m ((w, evt) :: rest)
         = (fst (Bot.Sync (handlers R) m rest),
            t ++ snd (Bot.Sync (handlers R) m rest))))) /\
  (forall (m : MatrixPkg.Matrix) (w : MatrixPkg.W),
     Mautrix.GetStateKey evt = MatrixPkg.client_UserID m ->
     let '(t, end_) := MatrixPkg.handle MatrixPkg.InviteHandler m w evt in
     joins t = [JoinRoomByID (Mautrix.RoomID evt)] /\
     end_ = MatrixPkg.Returned /\
     (joinRoom w (Mautrix.RoomID evt) = Err err ->
      t = [ JoinRoomByID (Mautrix.RoomID evt);
            Log Error [("error", err); ("room_id", Mautrix.RoomID evt);
                       ("inviter", Mautrix.Sender evt)]
              "Failed to join room after invite" ] /\
      joined w t = [])).
Proof.
  intros Hinvite. split.
  - intros m w Hkey.
    unfold Bot.handle, Bot.InviteHandler; cbn [snd].
    rewrite Hkey, Hinvite, !String.eqb_refl; cbn [andb].
    destruct (joinRoom w (Mautrix.RoomID evt)) as [[] | e] eqn:Hjoin.
    + split; [reflexivity | discriminate].
    + split; [reflexivity |]. intros [= ->].
      split; [reflexivity | split; [reflexivity |]]. split.
      * cbn. rewrite Hjoin. reflexivity.
      * intros Hty rest. cbn [Bot.Sync Bot.dispatch handlers].
        rewrite Hty. cbn [fst snd Bot.InviteHandler Bot.RespondHandler].
        rewrite decide_True by reflexivity.
        rewrite Hkey, Hinvite, !String.eqb_refl; cbn [andb]. rewrite Hjoin.
        rewrite decide_False by discriminate.
        destruct (Bot.Sync _ m rest) as [m2 t2]. reflexivity.
  - intros m w Hkey.
    unfold MatrixPkg.handle, MatrixPkg.InviteHandler; cbn [snd].
    rewrite Hkey, Hinvite, !String.eqb_refl; cbn [andb].
    destruct (joinRoom w (Mautrix.RoomID evt)) as [[] | e] eqn:Hjoin.
    + split; [reflexivity | split; [reflexivity | discriminate]].
    + split; [reflexivity | split; [reflexivity |]]. intros [= ->].
      split; [reflexivity |]. cbn. rewrite Hjoin. reflexivity.
Qed.

Lemma invite_join_failure_logged_witness :
  Mautrix.Membership (Mautrix.AsMember (Mautrix.Content_ invite))
    = Mautrix.MembershipInvite /\
  Mautrix.GetStateKey invite = Bot.client_UserID greeted /\
  joinRoom joinDown (Mautrix.RoomID invite) = Err "M_FORBIDDEN" /\
  Bot.Sync (handlers plainText) greeted
    [ (joinDown, invite); (answering "Fine, thanks." "$E4", howAreYou) ]
  = (chatting,
     [ JoinRoomByID "!lounge:example.org";
       Log Error [("error", "M_FORBIDDEN");
                  ("room_id", "!lounge:example.org");
                  ("inviter", "@alice:example.org")]
         "Failed to join room after invite" ] ++
     snd (Bot.handle (Bot.RespondHandler plainText) greeted
            (answering "Fine, thanks." "$E4") howAreYou)).
Proof.
  split; [reflexivity | split; [reflexivity | split; [reflexivity |]]].
  pose proof (invite_join_failure_logged plainText invite "M_FORBIDDEN"
                eq_refl) as [H _].
  specialize (H greeted joinDown eq_refl).
  destruct (Bot.handle Bot.InviteHandler greeted joinDown invite) as [m' t].
  destruct H as (_ & H). destruct (H eq_refl) as (_ & -> & _ & Hsync).
  rewrite (Hsync eq_refl). reflexivity.
Defined.

(** ** The choice of the reply, in the single-shot handler *)

Lemma index_last {A : Type} (s : list A) :
  index s (len s - 1) = last s.
Proof.
  unfold index, len. destruct s as [| a s] using rev_ind.
  - reflexivity.
  - rewrite last_snoc, length_app. cbn [length].
    destruct (Z.ltb_spec (Z.of_nat (length s + 1) - 1) 0) as [Hlt | _]; [lia |].
    destruct (Z.leb_spec (Z.of_nat (length s + 1))
                (Z.of_nat (length s + 1) - 1)) as [Hle | _]; [lia |].
    cbn [orb].
    replace (Z.to_nat (Z.of_nat (length s + 1) - 1)) with (length s) by lia.
    by rewrite list_lookup_middle.
Qed.

Lemma respond_legacy_other
    (R : string -> bool -> bool -> Mautrix.MessageEventContent)
    (m : MatrixPkg.Matrix) (w : MatrixPkg.W) (evt : Mautrix.Event)
    (resp : OpenAI.ChatCompletionResponse) :
  Mautrix.Sender evt <> MatrixPkg.UserID (MatrixPkg.config m) ->
  complete w (MatrixPkg.request
                (Mautrix.Body (Mautrix.AsMessage (Mautrix.Content_ evt))))
    = Ok resp ->
  let '(t, end_) := MatrixPkg.handle (MatrixPkg.RespondHandler R) m w evt in
  match last (OpenAI.Choices resp) with
  | Some choice =>
      sends t = [ SendMessageEvent (Mautrix.RoomID evt) Mautrix.EventMessage
                    (R (OpenAI.Content (OpenAI.Message choice)) true false) ] /\
      end_ = MatrixPkg.Returned
  | None => sends t = [] /\ end_ = MatrixPkg.Panicked
  end.
Proof.
  intros Hother Hresp.
  unfold MatrixPkg.handle, MatrixPkg.RespondHandler; cbn [snd].
  destruct (String.eqb_spec (Mautrix.Sender evt)
              (MatrixPkg.UserID (MatrixPkg.config m))) as [E | _];
    [contradiction |].
  cbn [negb]. rewrite Hresp, index_last.
  destruct (last (OpenAI.Choices resp)); split; reflexivity.
Qed.

(** C6: of a successful response with N choices, N at least one, the handler
    sends the content of choice N, the last of the list, as the reply. *)
Theorem reply_is_last_choice
    (R : string -> bool -> bool -> Mautrix.MessageEventContent)
    (m : MatrixPkg.Matrix) (w : MatrixPkg.W) (evt : Mautrix.Event)
    (resp : OpenAI.ChatCompletionResponse) (N : nat) :
  Mautrix.Sender evt <> MatrixPkg.UserID (MatrixPkg.config m) ->
  complete w (MatrixPkg.request
                (Mautrix.Body (Mautrix.AsMessage (Mautrix.Content_ evt))))
    = Ok resp ->
  length (OpenAI.Choices resp) = N ->
  1 <= N ->
  let '(t, end_) := MatrixPkg.handle (MatrixPkg.RespondHandler R) m w evt in
  exists choice,
    OpenAI.Choices resp !! (N - 1) = Some choice /\
    sends t = [ SendMessageEvent (Mautrix.RoomID evt) Mautrix.EventMessage
                  (R (OpenAI.Content (OpenAI.Message choice)) true false) ] /\
    end_ = MatrixPkg.Returned.
Proof.
  intros Hother Hresp HN Hpos.
  pose proof (respond_legacy_other R m w evt resp Hother Hresp) as H.
  destruct (MatrixPkg.handle _ _ _ _) as [t end_].
  rewrite last_lookup, HN in H.
  replace (Nat.pred N) with (N - 1) in H by lia.
  destruct (lookup_lt_is_Some_2 (OpenAI.Choices resp) (N - 1)) as [choice Hc];
    [lia |].
  rewrite Hc in H. by exists choice.
Qed.

Lemma reply_is_last_choice_witness :
  Mautrix.Sender hello <> MatrixPkg.UserID (MatrixPkg.config legacyBot) /\
  sends (fst (MatrixPkg.handle (MatrixPkg.RespondHandler plainText) legacyBot
                (choosing ["Hi!"; "Hello there!"]) hello))
  = [ SendMessageEvent "!room:example.org" Mautrix.EventMessage
        (plainText "Hello there!" true false) ].
Proof.
  assert (Hother : Mautrix.Sender hello
                   <> MatrixPkg.UserID (MatrixPkg.config legacyBot))
    by (vm_compute; discriminate).
  split; [exact Hother |].
  pose proof (reply_is_last_choice plainText legacyBot
                (choosing ["Hi!"; "Hello there!"]) hello _ 2 Hother
                eq_refl eq_refl (le_S _ _ (le_n 1))) as H.
  destruct (MatrixPkg.handle _ _ _ _) as [t end_].
  destruct H as (choice & Hchoice & Hsends & _). cbn [fst]. rewrite Hsends.
  injection Hchoice as <-. reflexivity.
Defined.

(** C10: the reply is read at index [len - 1] of the choices with no check
    that there is one.  For a successful response the index is in range
    exactly when the response has a choice: with no choice the index is out
    of range and the handler panics, with nothing sent. *)
Theorem last_choice_needs_a_choice
    (R : string -> bool -> bool -> Mautrix.MessageEventContent)
    (m : MatrixPkg.Matrix) (w : MatrixPkg.W) (evt : Mautrix.Event)
    (resp : OpenAI.ChatCompletionResponse) :
  Mautrix.Sender evt <> MatrixPkg.UserID (MatrixPkg.config m) ->
  complete w (MatrixPkg.request
                (Mautrix.Body (Mautrix.AsMessage (Mautrix.Content_ evt))))
    = Ok resp ->
  let '(t, end_) := MatrixPkg.handle (MatrixPkg.RespondHandler R) m w evt in
  (index (OpenAI.Choices resp) (len (OpenAI.Choices resp) - 1) = None <->
   OpenAI.Choices resp = []) /\
  (end_ = MatrixPkg.Panicked <-> OpenAI.Choices resp = []) /\
  (OpenAI.Choices resp = [] -> sends t = []).
Proof.
  intros Hother Hresp.
  pose proof (respond_legacy_other R m w evt resp Hother Hresp) as H.
  destruct (MatrixPkg.handle _ _ _ _) as [t end_].
  rewrite index_last, last_None.
  destruct (OpenAI.Choices resp) as [| c cs] using rev_ind.
  - cbn in H. destruct H as [-> ->]. done.
  - rewrite last_snoc in H. destruct H as [-> ->].
    split; [done |]. split; [| intros E; by destruct cs].
    split; [discriminate | intros E; by destruct cs].
Qed.

Lemma last_choice_needs_a_choice_witness :
  Mautrix.Sender hello <> MatrixPkg.UserID (MatrixPkg.config legacyBot) /\
  complete (choosing [])
    (MatrixPkg.request (Mautrix.Body (Mautrix.AsMessage (Mautrix.Content_ hello))))
    = Ok {| OpenAI.Choices := [] |} /\
  snd (MatrixPkg.handle (MatrixPkg.RespondHandler plainText) legacyBot
         (choosing []) hello) = MatrixPkg.Panicked.
Proof.
  assert (Hother : Mautrix.Sender hello
                   <> MatrixPkg.UserID (MatrixPkg.config legacyBot))
    by (vm_compute; discriminate).
  split; [exact Hother | split; [reflexivity |]].
  pose proof (last_choice_needs_a_choice plainText legacyBot (choosing [])
                hello _ Hother eq_refl) as H.
  destruct (MatrixPkg.handle _ _ _ _) as [t end_].
  destruct H as (_ & H & _). apply H. reflexivity.
Defined.

(** ** Ownership of turn ids *)





Lemma invite_keeps_store (m : Bot.Matrix) (w : Bot.W) (evt : Mautrix.Event) :
  fst (Bot.handle Bot.InviteHandler m w evt) = m.
Proof.
  unfold Bot.handle, Bot.InviteHandler; cbn [snd].
  destruct (_ && _); [destruct (joinRoom w _) |]; reflexivity.
Qed.




(** ** The store only grows *)

Lemma extends_refl (cs : list Bot.Conversation) : extends cs cs.
Proof. split; [lia | intros p; reflexivity]. Qed.

Lemma extends_trans (cs1 cs2 cs3 : list Bot.Conversation) :
  extends cs1 cs2 -> extends cs2 cs3 -> extends cs1 cs3.
Proof.
  intros [Hl12 Hp12] [Hl23 Hp23]. split; [lia |].
  intros p. etrans; [apply Hp12 | apply Hp23].
Qed.

Lemma gains_extends (cs cs' : list Bot.Conversation) p new :
  length cs <= length cs' -> gains cs cs' p new -> extends cs cs'.
Proof.
  intros Hlen [Hturns Hsame]. split; [exact Hlen |]. intros q.
  destruct (decide (q = p)) as [-> | Hq].
  - rewrite Hturns. by apply prefix_app_r.
  - unfold Bot.turnsAt. by rewrite Hsame.
Qed.

Lemma totalTurns_app (cs : list Bot.Conversation) c :
  totalTurns (cs ++ [c]) = totalTurns cs + length (Bot.Messages c).
Proof.
  unfold totalTurns. rewrite sum_list_with_app. cbn. lia.
Qed.

Lemma totalTurns_insert (cs : list Bot.Conversation) p c c' :
  cs !! p = Some c ->
  totalTurns (<[p := c']> cs) + length (Bot.Messages c)
  = totalTurns cs + length (Bot.Messages c').
Proof.
  unfold totalTurns. revert p. induction cs as [| c0 cs IH]; intros p Hp.
  - by rewrite lookup_nil in Hp.
  - destruct p as [| p].
    + injection Hp as ->. cbn. lia.
    + specialize (IH p Hp).
      change (<[S p := c']> (c0 :: cs)) with (c0 :: <[p := c']> cs).
      cbn [sum_list_with]. lia.
Qed.

(** The resolution adds one turn to the store, and at most one
    conversation. *)
Lemma resolve_size (cs : list Bot.Conversation) eventID parentID body :
  forall cs' p c', Bot.resolve cs eventID parentID body = (cs', p, c') ->
  totalTurns cs' = S (totalTurns cs) /\
  length cs <= length cs' <= S (length cs).
Proof.
  intros cs' p c'. unfold Bot.resolve.
  destruct (if negb (parentID =? "")%string
            then Bot.FindByEventID cs parentID else None)
    as [[p0 c0] |] eqn:Hconv.
  - assert (Hfind : Bot.FindByEventID cs parentID = Some (p0, c0)).
    { destruct (negb (parentID =? "")%string); [done | discriminate]. }
    apply find_lookup in Hfind as (Hp0 & _ & _).
    intros [= <- <- <-]. rewrite length_insert. split; [| lia].
    pose proof (totalTurns_insert cs p0 c0
                  (Bot.Add c0 {| Bot.EventID := eventID;
                                 Bot.ParentID := parentID;
                                 Bot.Role := OpenAI.ChatMessageRoleUser;
                                 Bot.Content := body |}) Hp0) as H.
    cbn in H. rewrite length_app in H. cbn in H. lia.
  - intros [= <- <- <-]. rewrite totalTurns_app, length_app. cbn. lia.
Qed.

(** One event, whatever the collaborators answer: the store keeps what it
    had, and gains at most one conversation and at most two turns. *)
Lemma respond_step
    (R : string -> bool -> bool -> Mautrix.MessageEventContent)
    (m : Bot.Matrix) (w : Bot.W) (evt : Mautrix.Event) :
  let m' := fst (Bot.handle (Bot.RespondHandler R) m w evt) in
  Bot.config m' = Bot.config m /\
  Bot.client_UserID m' = Bot.client_UserID m /\
  extends (Bot.conversations m) (Bot.conversations m') /\
  length (Bot.conversations m') <= S (length (Bot.conversations m)) /\
  totalTurns (Bot.conversations m) <= totalTurns (Bot.conversations m')
    <= totalTurns (Bot.conversations m) + 2.
Proof.
  cbn zeta.
  destruct (string_dec (Mautrix.Sender evt) (Bot.UserID (Bot.config m)))
    as [Hown | Hother]; fold (ownEvent m evt) in *.
  { rewrite respond_own by done. cbn [fst].
    split; [done | split; [done |]]. split; [apply extends_refl | lia]. }
  pose proof (respond_other_gains R m w evt Hother) as Hg.
  rewrite respond_other in * by done. cbn zeta in *.
  destruct (resolved_gains m evt) as (Hp & _).
  assert (Hsize := resolve_size (Bot.conversations m) (Mautrix.ID evt)
            (Bot.replyParent (Mautrix.AsMessage (Mautrix.Content_ evt)))
            (Mautrix.Body (Mautrix.AsMessage (Mautrix.Content_ evt)))
            (registered m evt) (place m evt) (pending m evt)).
  destruct Hsize as [Htot Hlen].
  { unfold registered, place, pending, resolved.
    by destruct (Bot.resolve _ _ _ _) as [[? ?] ?]. }
  destruct (complete w _) as [reply | err];
    [destruct (sendMessage w _ _ _) as [sent | err] |];
    destruct Hg as (_ & u & rest & _ & Hgains & _ & Hlen' & _);
    cbn [fst Bot.config Bot.client_UserID Bot.conversations
         Bot.set_conversations] in *;
    (split; [done | split; [done |]]);
    (split; [eapply gains_extends; [| exact Hgains]; lia |]);
    (split; [lia |]).
  - pose proof (totalTurns_insert (registered m evt) (place m evt)
                  (pending m evt)
                  (Bot.Add (pending m evt) (assistantTurn evt sent reply)) Hp)
      as H.
    cbn in H. rewrite length_app in H. cbn in H. lia.
  - lia.
  - lia.
Qed.

Lemma dispatch_step
    (R : string -> bool -> bool -> Mautrix.MessageEventContent)
    (m : Bot.Matrix) (w : Bot.W) (evt : Mautrix.Event) :
  let m' := fst (Bot.dispatch (handlers R) m w evt) in
  Bot.config m' = Bot.config m /\
  Bot.client_UserID m' = Bot.client_UserID m /\
  extends (Bot.conversations m) (Bot.conversations m') /\
  length (Bot.conversations m') <= S (length (Bot.conversations m)) /\
  totalTurns (Bot.conversations m) <= totalTurns (Bot.conversations m')
    <= totalTurns (Bot.conversations m) + 2.
Proof.
  cbn zeta. cbn [Bot.dispatch handlers].
  pose proof (invite_keeps_store m w evt) as Hinv.
  pose proof (respond_step R m w evt) as Hresp. cbn zeta in Hresp.
  assert (Hnone : Bot.config m = Bot.config m /\
                  Bot.client_UserID m = Bot.client_UserID m /\
                  extends (Bot.conversations m) (Bot.conversations m) /\
                  length (Bot.conversations m) <= S (length (Bot.conversations m)) /\
                  totalTurns (Bot.conversations m) <= totalTurns (Bot.conversations m)
                    <= totalTurns (Bot.conversations m) + 2).
  { split; [done | split; [done |]]. split; [apply extends_refl | lia]. }
  unfold Bot.handle in *.
  destruct (decide (fst Bot.InviteHandler = Mautrix.Type_ evt)) as [Hty | Hty].
  - destruct (snd Bot.InviteHandler m w evt) as [m1 t1]; cbn [fst] in Hinv.
    subst m1. rewrite decide_False by (cbn in *; congruence). exact Hnone.
  - destruct (decide (fst (Bot.RespondHandler R) = Mautrix.Type_ evt)).
    + destruct (snd (Bot.RespondHandler R) m w evt) as [m1 t1].
      exact Hresp.
    + exact Hnone.
Qed.

(** X1: over any stream of events the store is append-only.  Every
    conversation stays at its place with the turns it had, in the same order,
    at the head of its turns; none is dropped; and the bot's configuration
    and identity are what they were. *)
Theorem store_is_append_only
    (R : string -> bool -> bool -> Mautrix.MessageEventContent)
    (evs : list (Bot.W * Mautrix.Event)) (m : Bot.Matrix) :
  let m' := fst (Bot.Sync (handlers R) m evs) in
  Bot.config m' = Bot.config m /\
  Bot.client_UserID m' = Bot.client_UserID m /\
  length (Bot.conversations m) <= length (Bot.conversations m') /\
  forall p, Bot.turnsAt (Bot.conversations m) p
            `prefix_of` Bot.turnsAt (Bot.conversations m') p.
Proof.
  cbn zeta. revert m. induction evs as [| [w evt] evs IH]; intros m.
  - split; [done | split; [done | split; [done | intros p; reflexivity]]].
  - cbn [Bot.Sync].
    pose proof (dispatch_step R m w evt) as Hstep. cbn zeta in Hstep.
    destruct (Bot.dispatch (handlers R) m w evt) as [m1 t1]. cbn [fst] in Hstep.
    specialize (IH m1).
    destruct (Bot.Sync (handlers R) m1 evs) as [m2 t2]. cbn [fst] in *.
    destruct Hstep as (Hc & Hu & [Hl Hp] & _), IH as (Hc' & Hu' & Hl' & Hp').
    split; [congruence | split; [congruence | split; [lia |]]].
    intros p. etrans; [apply Hp | apply Hp'].
Qed.

(** X2: a stream of n events adds at most n conversations and at most 2n
    turns to the store. *)
Theorem store_growth_is_bounded
    (R : string -> bool -> bool -> Mautrix.MessageEventContent)
    (evs : list (Bot.W * Mautrix.Event)) (m : Bot.Matrix) :
  let m' := fst (Bot.Sync (handlers R) m evs) in
  length (Bot.conversations m') <= length (Bot.conversations m) + length evs /\
  totalTurns (Bot.conversations m) <= totalTurns (Bot.conversations m')
    <= totalTurns (Bot.conversations m) + 2 * length evs.
Proof.
  cbn zeta. revert m. induction evs as [| [w evt] evs IH]; intros m.
  - cbn. lia.
  - cbn [Bot.Sync].
    pose proof (dispatch_step R m w evt) as Hstep. cbn zeta in Hstep.
    destruct (Bot.dispatch (handlers R) m w evt) as [m1 t1]. cbn [fst] in Hstep.
    specialize (IH m1).
    destruct (Bot.Sync (handlers R) m1 evs) as [m2 t2]. cbn [fst length] in *.
    lia.
Qed.

(** After a full success the conversation of the event is in the store with
    its two new turns. *)
Lemma success_gains
    (R : string -> bool -> bool -> Mautrix.MessageEventContent)
    (m : Bot.Matrix) (w : Bot.W) (evt : Mautrix.Event) (reply sent : string) :
  ~ ownEvent m evt ->
  complete w (pending m evt) = Ok reply ->
  sendMessage w (Mautrix.RoomID evt) Mautrix.EventMessage (outbound R evt reply)
    = Ok sent ->
  let '(m', t) := Bot.handle (Bot.RespondHandler R) m w evt in
  exists u c',
    Bot.conversations m' !! place m evt = Some c' /\
    Bot.Messages c'
    = Bot.turnsAt (Bot.conversations m) (place m evt) ++
      [u; assistantTurn evt sent reply] /\
    gains (Bot.conversations m) (Bot.conversations m') (place m evt)
      [u; assistantTurn evt sent reply] /\
    Bot.Role u = OpenAI.ChatMessageRoleUser /\
    Bot.Content u = Mautrix.Body (Mautrix.AsMessage (Mautrix.Content_ evt)).
Proof.
  intros Hother Hreply Hsent. rewrite respond_other by done. cbn zeta.
  rewrite Hreply, Hsent.
  destruct (resolved_gains m evt) as (Hp & u & Hmsgs & Hg & Hrole & Hbody & _).
  assert (Hlt : place m evt < length (registered m evt))
    by (by eapply lookup_lt_Some).
  exists u, (Bot.Add (pending m evt) (assistantTurn evt sent reply)).
  cbn [Bot.conversations Bot.set_conversations].
  split; [by apply list_lookup_insert_eq |].
  split; [cbn; by rewrite Hmsgs, <- app_assoc |].
  split; [by apply gains_add | done].
Qed.

(** ** What the message handler asks and sends *)

(** X3: the bot sends at most one message per event, and only the reply of a
    completion that succeeded for an event of somebody else.  What it sends
    goes to the room the event came from, as a message event, marked as a
    reply to the inbound event. *)
Theorem sends_are_replies
    (R : string -> bool -> bool -> Mautrix.MessageEventContent)
    (m : Bot.Matrix) (w : Bot.W) (evt : Mautrix.Event) :
  let t := snd (Bot.handle (Bot.RespondHandler R) m w evt) in
  (sends t = [] \/
   exists reply,
     ~ ownEvent m evt /\
     complete w (pending m evt) = Ok reply /\
     sends t = [ SendMessageEvent (Mautrix.RoomID evt) Mautrix.EventMessage
                   (outbound R evt reply) ]) /\
  forall room ty content,
    In (SendMessageEvent room ty content) t ->
    room = Mautrix.RoomID evt /\ ty = Mautrix.EventMessage /\
    (Mautrix.GetReplyTo <$> Mautrix.GetRelatesTo content) = Some (Mautrix.ID evt).
Proof.
  cbn zeta.
  destruct (string_dec (Mautrix.Sender evt) (Bot.UserID (Bot.config m)))
    as [Hown | Hother]; fold (ownEvent m evt) in *.
  { rewrite respond_own by done. cbn [snd]. split; [by left |].
    intros room ty content [H | []]. discriminate H. }
  rewrite respond_other by done. cbn zeta.
  destruct (complete w _) as [reply | err] eqn:Hreply;
    [destruct (sendMessage w _ _ _) as [sent | err] |]; cbn [snd].
  - split; [right; by exists reply |].
    intros room ty content Hin. cbn in Hin.
    destruct Hin as [H | [H | [H | [H | []]]]]; try discriminate H.
    by injection H as <- <- <-.
  - split; [right; by exists reply |].
    intros room ty content Hin. cbn in Hin.
    destruct Hin as [H | [H | [H | [H | []]]]]; try discriminate H.
    by injection H as <- <- <-.
  - split; [by left |].
    intros room ty content Hin. cbn in Hin.
    destruct Hin as [H | [H | [H | []]]]; discriminate H.
Qed.

Lemma sends_are_replies_witness :
  sends (snd (Bot.handle (Bot.RespondHandler plainText) greeted
                (answering "Fine, thanks." "$E4") howAreYou))
  = [ SendMessageEvent "!room:example.org" Mautrix.EventMessage
        (outbound plainText howAreYou "Fine, thanks.") ].
Proof.
  pose proof (sends_are_replies plainText greeted
                (answering "Fine, thanks." "$E4") howAreYou) as H.
  cbn zeta in H.
  destruct H as [[Hnone | (reply & _ & Hreply & Hsends)] _].
  - vm_compute in Hnone. discriminate Hnone.
  - injection Hreply as <-. exact Hsends.
Defined.

(** X4: for an event of somebody else the handler makes exactly one
    completion request, before anything is sent, and makes it on the whole
    thread: the turns the conversation had, in their order, followed by one
    user turn with the event's body. *)
Theorem completion_sees_the_thread
    (R : string -> bool -> bool -> Mautrix.MessageEventContent)
    (m : Bot.Matrix) (w : Bot.W) (evt : Mautrix.Event) :
  ~ ownEvent m evt ->
  let t := snd (Bot.handle (Bot.RespondHandler R) m w evt) in
  exists u after,
    t = received evt :: Completion (pending m evt) :: after /\
    completions after = [] /\
    Bot.Messages (pending m evt)
      = Bot.turnsAt (Bot.conversations m) (place m evt) ++ [u] /\
    Bot.Role u = OpenAI.ChatMessageRoleUser /\
    Bot.Content u = Mautrix.Body (Mautrix.AsMessage (Mautrix.Content_ evt)).
Proof.
  intros Hother. cbn zeta.
  destruct (resolved_gains m evt) as (_ & u & Hmsgs & _ & Hrole & Hbody & _).
  rewrite respond_other by done. cbn zeta.
  destruct (complete w _) as [reply | err];
    [destruct (sendMessage w _ _ _) as [sent | err] |]; cbn [snd];
    exists u; eexists; (split; [reflexivity |]); done.
Qed.

Lemma completion_sees_the_thread_witness :
  ~ ownEvent greeted howAreYou /\
  completions (snd (Bot.handle (Bot.RespondHandler plainText) greeted
                      (answering "Fine, thanks." "$E4") howAreYou))
  = [ Completion
        {| Bot.Messages :=
             Bot.turnsAt (Bot.conversations greeted) 0 ++ [userTurn howAreYou] |} ].
Proof.
  assert (Hother : ~ ownEvent greeted howAreYou) by (vm_compute; discriminate).
  split; [exact Hother |].
  destruct (completion_sees_the_thread plainText greeted
              (answering "Fine, thanks." "$E4") howAreYou Hother)
    as (u & after & -> & Hafter & _).
  change (completions (received howAreYou
                         :: Completion (pending greeted howAreYou) :: after))
    with (Completion (pending greeted howAreYou) :: completions after).
  rewrite Hafter. reflexivity.
Defined.

(** X5: a reply to the bot's answer continues the thread.  When an event
    has been answered and the answer's id is not empty and held by no
    conversation before the event's, a later event of somebody else that
    replies to the answer is resolved to the same conversation, and its
    completion request carries the thread so far: the turns the conversation
    had, the first event's user turn, the answer, and the new user turn. *)
Theorem reply_to_answer_continues_thread
    (R : string -> bool -> bool -> Mautrix.MessageEventContent)
    (m : Bot.Matrix) (w : Bot.W) (evt next : Mautrix.Event)
    (reply sent : string) :
  ~ ownEvent m evt ->
  complete w (pending m evt) = Ok reply ->
  sendMessage w (Mautrix.RoomID evt) Mautrix.EventMessage (outbound R evt reply)
    = Ok sent ->
  sent <> "" ->
  (forall q cq, Bot.conversations m !! q = Some cq -> q < place m evt ->
                ~ Bot.holds sent cq) ->
  Mautrix.Sender next <> Bot.UserID (Bot.config m) ->
  Bot.replyParent (Mautrix.AsMessage (Mautrix.Content_ next)) = sent ->
  let m' := fst (Bot.handle (Bot.RespondHandler R) m w evt) in
  place m' next = place m evt /\
  exists u,
    Bot.Role u = OpenAI.ChatMessageRoleUser /\
    Bot.Content u = Mautrix.Body (Mautrix.AsMessage (Mautrix.Content_ evt)) /\
    Bot.Messages (pending m' next)
    = Bot.turnsAt (Bot.conversations m) (place m evt) ++
      [ u; assistantTurn evt sent reply; userTurn next ].
Proof.
  intros Hother Hreply Hsent Hne Hfresh Hnext Hparent. cbn zeta.
  pose proof (success_gains R m w evt reply sent Hother Hreply Hsent) as H.
  destruct (Bot.handle _ m w evt) as [m' t]. cbn [fst].
  destruct H as (u & c' & Hc' & Hmsgs & [_ Hsame] & Hrole & Hbody).
  assert (Hfind : Bot.FindByEventID (Bot.conversations m') sent
                  = Some (place m evt, c')).
  { apply find_first; [exact Hc' | |].
    - unfold Bot.holds. rewrite Hmsgs, !fmap_app. cbn.
      apply elem_of_app. right. apply list_elem_of_further, list_elem_of_here.
    - intros q cq Hq Hlt. rewrite Hsame in Hq by lia. by eapply Hfresh. }
  pose proof (resolve_found (Bot.conversations m') (Mautrix.ID next) sent
                (Mautrix.Body (Mautrix.AsMessage (Mautrix.Content_ next)))
                (place m evt) c' Hne Hfind) as Hres.
  cbn zeta in Hres.
  unfold place at 1, pending, resolved. rewrite Hparent, Hres. cbn [fst snd].
  split; [reflexivity |]. exists u. split; [done | split; [done |]].
  cbn. rewrite Hmsgs, <- app_assoc. cbn. unfold userTurn. by rewrite Hparent.
Qed.

Lemma reply_to_answer_continues_thread_witness :
  ~ ownEvent emptyBot hello /\
  Bot.replyParent (Mautrix.AsMessage (Mautrix.Content_ howAreYou)) = "$E2" /\
  Bot.Content <$>
    Bot.Messages
      (pending (fst (Bot.handle (Bot.RespondHandler plainText) emptyBot
                       (answering "Hello there!" "$E2") hello)) howAreYou)
  = ["Hello"; "Hello there!"; "How are you?"].
Proof.
  assert (Hother : ~ ownEvent emptyBot hello) by (vm_compute; discriminate).
  split; [exact Hother | split; [reflexivity |]].
  assert (Hne : "$E2" <> "") by discriminate.
  assert (Hnext : Mautrix.Sender howAreYou <> Bot.UserID (Bot.config emptyBot))
    by (vm_compute; discriminate).
  assert (Hfresh : forall q cq,
            Bot.conversations emptyBot !! q = Some cq ->
            q < place emptyBot hello -> ~ Bot.holds "$E2" cq).
  { intros q cq Hq. cbn in Hq. by rewrite lookup_nil in Hq. }
  destruct (reply_to_answer_continues_thread plainText emptyBot
              (answering "Hello there!" "$E2") hello howAreYou
              "Hello there!" "$E2" Hother eq_refl eq_refl Hne Hfresh Hnext
              eq_refl) as (_ & u & _ & Hbody & ->).
  rewrite !fmap_app. cbn. rewrite Hbody. reflexivity.
Defined.

(** A reply that is resolved: what the handler leaves in the store. *)
Lemma found_gains
    (R : string -> bool -> bool -> Mautrix.MessageEventContent)
    (m : Bot.Matrix) (w : Bot.W) (evt : Mautrix.Event)
    (p : nat) (c : Bot.Conversation) :
  ~ ownEvent m evt ->
  Bot.replyParent (Mautrix.AsMessage (Mautrix.Content_ evt)) <> "" ->
  Bot.FindByEventID (Bot.conversations m)
    (Bot.replyParent (Mautrix.AsMessage (Mautrix.Content_ evt))) = Some (p, c) ->
  let '(m', t) := Bot.handle (Bot.RespondHandler R) m w evt in
  Bot.config m' = Bot.config m /\
  completions t = [Completion (Bot.Add c (userTurn evt))] /\
  exists rest c',
    Bot.conversations m' !! p = Some c' /\
    Bot.Messages c' = Bot.Messages c ++ userTurn evt :: rest /\
    forall q, q <> p -> Bot.conversations m' !! q = Bot.conversations m !! q.
Proof.
  intros Hother Hparent Hfind.
  pose proof (respond_other_gains R m w evt Hother) as H.
  pose proof (respond_step R m w evt) as Hstep. cbn zeta in Hstep.
  destruct (Bot.handle _ _ _ _) as [m' t]. cbn [fst] in Hstep.
  destruct H as (Hcompl & u & rest & Hmsgs & Hg & [c' Hc'] & _ & _).
  pose proof (resolve_found (Bot.conversations m) (Mautrix.ID evt) _
                (Mautrix.Body (Mautrix.AsMessage (Mautrix.Content_ evt)))
                p c Hparent Hfind) as Hres.
  cbn zeta in Hres. fold (userTurn evt) in Hres.
  assert (Hplace : place m evt = p).
  { unfold place, resolved. by rewrite Hres. }
  assert (Hpend : pending m evt = Bot.Add c (userTurn evt)).
  { unfold pending, resolved. by rewrite Hres. }
  rewrite Hplace in *. rewrite Hpend in *.
  apply find_lookup in Hfind as (Hp & _ & _).
  rewrite (turnsAt_lookup _ _ _ Hp) in Hmsgs. cbn in Hmsgs.
  apply app_inj_tail in Hmsgs as [_ <-].
  split; [apply Hstep | split; [exact Hcompl |]].
  exists rest, c'. split; [exact Hc' |]. destruct Hg as [Hturns Hsame].
  split; [| exact Hsame].
  by rewrite <- (turnsAt_lookup _ _ _ Hc'), Hturns, (turnsAt_lookup _ _ _ Hp).
Qed.

(** X6: nothing is de-duplicated.  An event that replies into a conversation
    and is delivered twice is recorded twice in it, and a completion is
    requested for each delivery. *)
Theorem redelivery_is_recorded_twice
    (R : string -> bool -> bool -> Mautrix.MessageEventContent)
    (m : Bot.Matrix) (w1 w2 : Bot.W) (evt : Mautrix.Event)
    (p : nat) (c : Bot.Conversation) :
  ~ ownEvent m evt ->
  Bot.replyParent (Mautrix.AsMessage (Mautrix.Content_ evt)) <> "" ->
  Bot.FindByEventID (Bot.conversations m)
    (Bot.replyParent (Mautrix.AsMessage (Mautrix.Content_ evt))) = Some (p, c) ->
  let '(m1, t1) := Bot.handle (Bot.RespondHandler R) m w1 evt in
  let '(m2, t2) := Bot.handle (Bot.RespondHandler R) m1 w2 evt in
  length (completions t1) = 1 /\ length (completions t2) = 1 /\
  exists rest1 rest2,
    Bot.turnsAt (Bot.conversations m2) p
    = Bot.Messages c ++ userTurn evt :: rest1 ++ userTurn evt :: rest2.
Proof.
  intros Hother Hparent Hfind.
  pose proof (found_gains R m w1 evt p c Hother Hparent Hfind) as H1.
  destruct (Bot.handle _ m w1 evt) as [m1 t1].
  destruct H1 as (Hcfg & Hc1 & rest1 & c1 & Hp1 & Hmsgs1 & Hsame1).
  apply find_lookup in Hfind as (Hp & Hholds & Hfirst).
  assert (Hother1 : ~ ownEvent m1 evt) by (unfold ownEvent in *; by rewrite Hcfg).
  assert (Hfind1 : Bot.FindByEventID (Bot.conversations m1)
                     (Bot.replyParent (Mautrix.AsMessage (Mautrix.Content_ evt)))
                   = Some (p, c1)).
  { apply find_first; [exact Hp1 | |].
    - unfold Bot.holds in *. rewrite Hmsgs1, fmap_app.
      apply elem_of_app. by left.
    - intros q cq Hq Hlt. rewrite Hsame1 in Hq by lia. by eapply Hfirst. }
  pose proof (found_gains R m1 w2 evt p c1 Hother1 Hparent Hfind1) as H2.
  destruct (Bot.handle _ m1 w2 evt) as [m2 t2].
  destruct H2 as (_ & Hc2 & rest2 & c2 & Hp2 & Hmsgs2 & _).
  rewrite Hc1, Hc2. split; [reflexivity | split; [reflexivity |]].
  exists rest1, rest2.
  rewrite (turnsAt_lookup _ _ _ Hp2), Hmsgs2, Hmsgs1, <- app_assoc.
  reflexivity.
Qed.

Lemma redelivery_is_recorded_twice_witness :
  ~ ownEvent greeted howAreYou /\
  Bot.replyParent (Mautrix.AsMessage (Mautrix.Content_ howAreYou)) <> "" /\
  exists rest1 rest2,
    Bot.turnsAt
      (Bot.conversations
         (fst (Bot.handle (Bot.RespondHandler plainText)
                 (fst (Bot.handle (Bot.RespondHandler plainText) greeted
                         completionDown howAreYou))
                 completionDown howAreYou))) 0
    = Bot.turnsAt (Bot.conversations greeted) 0 ++
      userTurn howAreYou :: rest1 ++ userTurn howAreYou :: rest2.
Proof.
  assert (Hother : ~ ownEvent greeted howAreYou) by (vm_compute; discriminate).
  assert (Hparent : Bot.replyParent (Mautrix.AsMessage (Mautrix.Content_ howAreYou))
                    <> "") by (vm_compute; discriminate).
  split; [exact Hother | split; [exact Hparent |]].
  pose proof (redelivery_is_recorded_twice plainText greeted completionDown
                completionDown howAreYou 0 _ Hother Hparent eq_refl) as H.
  destruct (Bot.handle _ greeted _ _) as [m1 t1]. cbn [fst].
  destruct (Bot.handle _ m1 _ _) as [m2 t2]. cbn [fst].
  destruct H as (_ & _ & rest1 & rest2 & H). by exists rest1, rest2.
Defined.

Lemma invite_cases_bot (m m' : Bot.Matrix) (w : Bot.W) (evt : Mautrix.Event)
    (t : list Bot.Eff) :
  Bot.handle Bot.InviteHandler m w evt = (m', t) ->
  m' = m /\ completions t = [] /\ sends t = [] /\
  (addressed (Bot.client_UserID m) evt ->
   joins t = [JoinRoomByID (Mautrix.RoomID evt)]) /\
  (~ addressed (Bot.client_UserID m) evt -> t = []) /\
  (joined w t = [Mautrix.RoomID evt] <->
   addressed (Bot.client_UserID m) evt /\
   joinRoom w (Mautrix.RoomID evt) = Ok tt).
Proof.
  unfold Bot.handle, Bot.InviteHandler, addressed; cbn [snd].
  destruct (String.eqb_spec (Mautrix.GetStateKey evt) (Bot.client_UserID m))
    as [Hkey | Hkey];
    [destruct (String.eqb_spec
                 (Mautrix.Membership (Mautrix.AsMember (Mautrix.Content_ evt)))
                 Mautrix.MembershipInvite) as [Hinv | Hinv] |]; cbn [andb].
  - destruct (joinRoom w (Mautrix.RoomID evt)) as [[] | err] eqn:Hjoin;
      intros [= <- <-];
      (split; [done |]); (split; [done |]); (split; [done |]);
      (split; [done |]); (split; [by intros [] |]);
      cbn; rewrite Hjoin; cbn.
    + done.
    + split; [done | by intros (_ & [=])].
  - intros [= <- <-]. split; [done |]. split; [done |]. split; [done |].
    split; [by intros [_ ?] |]. split; [done |].
    split; [done | by intros [[_ ?] _]].
  - intros [= <- <-]. split; [done |]. split; [done |]. split; [done |].
    split; [by intros [? _] |]. split; [done |].
    split; [done | by intros [[? _] _]].
Qed.

Lemma invite_cases_legacy (m : MatrixPkg.Matrix) (w : MatrixPkg.W)
    (evt : Mautrix.Event) (t : list MatrixPkg.Eff) (end_ : MatrixPkg.Outcome) :
  MatrixPkg.handle MatrixPkg.InviteHandler m w evt = (t, end_) ->
  end_ = MatrixPkg.Returned /\ completions t = [] /\ sends t = [] /\
  (addressed (MatrixPkg.client_UserID m) evt ->
   joins t = [JoinRoomByID (Mautrix.RoomID evt)]) /\
  (~ addressed (MatrixPkg.client_UserID m) evt -> t = []) /\
  (joined w t = [Mautrix.RoomID evt] <->
   addressed (MatrixPkg.client_UserID m) evt /\
   joinRoom w (Mautrix.RoomID evt) = Ok tt).
Proof.
  unfold MatrixPkg.handle, MatrixPkg.InviteHandler, addressed; cbn [snd].
  destruct (String.eqb_spec (Mautrix.GetStateKey evt)
              (MatrixPkg.client_UserID m)) as [Hkey | Hkey];
    [destruct (String.eqb_spec
                 (Mautrix.Membership (Mautrix.AsMember (Mautrix.Content_ evt)))
                 Mautrix.MembershipInvite) as [Hinv | Hinv] |]; cbn [andb].
  - destruct (joinRoom w (Mautrix.RoomID evt)) as [[] | err] eqn:Hjoin;
      intros [= <- <-];
      (split; [done |]); (split; [done |]); (split; [done |]);
      (split; [done |]); (split; [by intros [] |]);
      cbn; rewrite Hjoin; cbn.
    + done.
    + split; [done | by intros (_ & [=])].
  - intros [= <- <-]. split; [done |]. split; [done |]. split; [done |].
    split; [by intros [_ ?] |]. split; [done |].
    split; [done | by intros [[_ ?] _]].
  - intros [= <- <-]. split; [done |]. split; [done |]. split; [done |].
    split; [by intros [? _] |]. split; [done |].
    split; [done | by intros [[? _] _]].
Qed.

(** X8: the invite handler acts on one kind of event only.  It calls the
    join, once, exactly when the state key is the bot's identity and the
    membership is an invite, and otherwise does nothing at all; the bot has
    entered the room exactly when that join was accepted.  It never asks for
    a completion, never sends a message and never changes the bot's state.
    This holds of both versions. *)
Theorem invite_handler_acts_on_own_invites_only
    (m : Bot.Matrix) (w : Bot.W) (m0 : MatrixPkg.Matrix) (w0 : MatrixPkg.W)
    (evt : Mautrix.Event) :
  let '(m', t) := Bot.handle Bot.InviteHandler m w evt in
  let '(t0, end0) := MatrixPkg.handle MatrixPkg.InviteHandler m0 w0 evt in
  (m' = m /\ completions t = [] /\ sends t = [] /\
   (addressed (Bot.client_UserID m) evt ->
    joins t = [JoinRoomByID (Mautrix.RoomID evt)]) /\
   (~ addressed (Bot.client_UserID m) evt -> t = []) /\
   (joined w t = [Mautrix.RoomID evt] <->
    addressed (Bot.client_UserID m) evt /\
    joinRoom w (Mautrix.RoomID evt) = Ok tt)) /\
  (end0 = MatrixPkg.Returned /\ completions t0 = [] /\ sends t0 = [] /\
   (addressed (MatrixPkg.client_UserID m0) evt ->
    joins t0 = [JoinRoomByID (Mautrix.RoomID evt)]) /\
   (~ addressed (MatrixPkg.client_UserID m0) evt -> t0 = []) /\
   (joined w0 t0 = [Mautrix.RoomID evt] <->
    addressed (MatrixPkg.client_UserID m0) evt /\
    joinRoom w0 (Mautrix.RoomID evt) = Ok tt)).
Proof.
  destruct (Bot.handle _ m w evt) as [m' t] eqn:Hbot.
  destruct (MatrixPkg.handle _ m0 w0 evt) as [t0 end0] eqn:Hlegacy.
  split; [by eapply invite_cases_bot | by eapply invite_cases_legacy].
Qed.

Lemma invite_handler_acts_on_own_invites_only_witness :
  Mautrix.GetStateKey otherJoin <> Bot.client_UserID greeted /\
  Bot.handle Bot.InviteHandler greeted (answering "x" "$y") otherJoin
  = (greeted, []).
Proof.
  assert (Hkey : Mautrix.GetStateKey otherJoin <> Bot.client_UserID greeted)
    by (vm_compute; discriminate).
  split; [exact Hkey |].
  pose proof (invite_handler_acts_on_own_invites_only greeted
                (answering "x" "$y") legacyBot legacyDown otherJoin) as H.
  destruct (Bot.handle _ _ _ _) as [m' t].
  destruct (MatrixPkg.handle _ _ _ _) as [t0 end0].
  destruct H as [(-> & _ & _ & _ & H & _) _].
  rewrite H; [reflexivity |]. by intros [? _].
Defined.

(** ** Failures in the single-shot handler *)

(** X9: the single-shot handler never logs an error and never looks at the
    answer of the send: what it does is the same whether the send succeeds or
    fails.  A failed completion is printed on the standard output with its
    error, nothing is sent, and the handler returns. *)
Theorem legacy_failures_are_silent
    (R : string -> bool -> bool -> Mautrix.MessageEventContent)
    (m : MatrixPkg.Matrix) (w w' : MatrixPkg.W) (evt : Mautrix.Event) :
  let body := Mautrix.Body (Mautrix.AsMessage (Mautrix.Content_ evt)) in
  let '(t, end_) := MatrixPkg.handle (MatrixPkg.RespondHandler R) m w evt in
  (forall fields msg, ~ In (Log Error fields msg) t) /\
  (complete w (MatrixPkg.request body) = complete w' (MatrixPkg.request body) ->
   MatrixPkg.handle (MatrixPkg.RespondHandler R) m w' evt = (t, end_)) /\
  (forall err,
     Mautrix.Sender evt <> MatrixPkg.UserID (MatrixPkg.config m) ->
     complete w (MatrixPkg.request body) = Err err ->
     In (Println ("OpenAI API returned with  " ++ err)) t /\
     sends t = [] /\ end_ = MatrixPkg.Returned).
Proof.
  cbn zeta. unfold MatrixPkg.handle, MatrixPkg.RespondHandler; cbn [snd].
  destruct (String.eqb_spec (Mautrix.Sender evt)
              (MatrixPkg.UserID (MatrixPkg.config m))) as [Hown | Hother];
    cbn [negb].
  - split; [| split; [done | by intros err []]].
    intros fields msg [H | [H | []]]; discriminate H.
  - destruct (complete w _) as [resp | err] eqn:Hresp.
    + destruct (index _ _) as [choice |] eqn:Hchoice.
      * split; [| split; [| intros err _ [=]]].
        -- intros fields msg Hin. cbn in Hin.
           destruct Hin as [H | [H | [H | [H | []]]]]; discriminate H.
        -- intros <-. by rewrite Hchoice.
      * split; [| split; [| intros err _ [=]]].
        -- intros fields msg Hin. cbn in Hin.
           destruct Hin as [H | [H | [H | []]]]; discriminate H.
        -- intros <-. by rewrite Hchoice.
    + split; [| split].
      * intros fields msg Hin. cbn in Hin.
        destruct Hin as [H | [H | [H | [H | []]]]]; discriminate H.
      * by intros <-.
      * intros err' _ [= <-]. split; [| done].
        cbn. right. right. right. by left.
Qed.

Lemma legacy_failures_are_silent_witness :
  Mautrix.Sender hello <> MatrixPkg.UserID (MatrixPkg.config legacyBot) /\
  complete legacyDown
    (MatrixPkg.request (Mautrix.Body (Mautrix.AsMessage (Mautrix.Content_ hello))))
  = Err "status code: 503" /\
  sends (fst (MatrixPkg.handle (MatrixPkg.RespondHandler plainText) legacyBot
                legacyDown hello)) = [].
Proof.
  assert (Hother : Mautrix.Sender hello
                   <> MatrixPkg.UserID (MatrixPkg.config legacyBot))
    by (vm_compute; discriminate).
  split; [exact Hother | split; [reflexivity |]].
  pose proof (legacy_failures_are_silent plainText legacyBot legacyDown
                legacyDown hello) as H.
  cbn zeta in H. destruct (MatrixPkg.handle _ _ _ _) as [t end_].
  destruct H as (_ & _ & H). cbn [fst].
  by destruct (H _ Hother eq_refl) as (_ & -> & _).
Defined.

(** ** Start-up *)

Section BotInit.

Variable GPT : Type.
Variable NewGPT : string -> GPT.
Variables (m : BotStartup.Instance GPT) (h : Host).

Let cfg := BotStartup.config m.
Let login := passwordLogin (Bot.UserID cfg) (Bot.UserPassword cfg).

(** [Init] goes through its calls in order and stops at the first that
    fails. *)
Lemma init_trace :
  let '(m', t, err) := BotStartup.Init GPT NewGPT m h in
  BotStartup.config m' = cfg /\
  match err with
  | None =>
      Forall (fun c => answer h c = Ok tt) t /\
      t = [ NewClient (Bot.Homeserver cfg) (Bot.UserID cfg) (Bot.UserAccessKey cfg);
            NewCryptoHelper (Bot.Pickle cfg) (Bot.DBPath cfg);
            CryptoHelperInit login;
            CallNewGPT (Bot.OpenAIKey cfg) ] /\
      BotStartup.client m'
        = Some {| cl_UserID := Bot.UserID cfg; cl_Crypto := true |} /\
      BotStartup.cryptoHelper m' = Some {| LoginAs := Some login |} /\
      BotStartup.gptClient m' = Some (NewGPT (Bot.OpenAIKey cfg)) /\
      BotStartup.conversations m' = []
  | Some e =>
      (exists before c,
         t = before ++ [c] /\ answer h c = Err e /\
         Forall (fun c => answer h c = Ok tt) before) /\
      (forall key, ~ In (CallNewGPT key) t) /\
      BotStartup.conversations m' = BotStartup.conversations m /\
      BotStartup.gptClient m' = BotStartup.gptClient m /\
      match BotStartup.client m' with
      | Some cl => cl_Crypto cl = true -> BotStartup.client m' = BotStartup.client m
      | None => BotStartup.client m = None
      end
  end.
Proof.
  unfold BotStartup.Init. fold cfg. fold login.
  destruct (newClient h _ _ _) as [[] | e1] eqn:H1.
  - destruct (newCryptoHelper h _ _) as [[] | e2] eqn:H2.
    + destruct (cryptoHelperInit h _) as [[] | e3] eqn:H3.
      * split; [reflexivity |]. split; [| done].
        repeat constructor; assumption.
      * split; [reflexivity |]. split; [| split; [| done]].
        -- eexists [_; _], _. split; [reflexivity |]. split; [exact H3 |].
           repeat constructor; assumption.
        -- intros key Hin. cbn in Hin.
           destruct Hin as [H | [H | [H | []]]]; discriminate H.
    + split; [reflexivity |]. split; [| split; [| done]].
      * eexists [_], _. split; [reflexivity |]. split; [exact H2 |].
        repeat constructor; assumption.
      * intros key Hin. cbn in Hin.
        destruct Hin as [H | [H | []]]; discriminate H.
  - split; [reflexivity |]. split; [| split; [| split; [done | split; [done |]]]].
    + exists [], (NewClient (Bot.Homeserver cfg) (Bot.UserID cfg)
                    (Bot.UserAccessKey cfg)).
      split; [reflexivity |]. split; [exact H1 | constructor].
    + intros key Hin. cbn in Hin. destruct Hin as [H | []]; discriminate H.
    + by destruct (BotStartup.client m).
Qed.

End BotInit.

(** X10: [Init] of package [bot] succeeds exactly when the three calls that
    can fail succeed, and then it has made its four calls in order.  The
    instance it leaves has the client made for the configured user id with
    the crypto set, the crypto helper logging in with the configured user
    and password, the completion client made from the configured key, and an
    empty store, whatever the store held before.  So the two handlers answer
    to one identity: an invite of the configured user is joined, and a
    message of the configured user is dropped. *)
Theorem init_success_gives_one_identity
    (GPT : Type) (NewGPT : string -> GPT)
    (m : BotStartup.Instance GPT) (h : Host) :
  let cfg := BotStartup.config m in
  let '(m', t, err) := BotStartup.Init GPT NewGPT m h in
  (err = None <->
   newClient h (Bot.Homeserver cfg) (Bot.UserID cfg) (Bot.UserAccessKey cfg)
     = Ok tt /\
   newCryptoHelper h (Bot.Pickle cfg) (Bot.DBPath cfg) = Ok tt /\
   cryptoHelperInit h (passwordLogin (Bot.UserID cfg) (Bot.UserPassword cfg))
     = Ok tt) /\
  (err = None ->
   t = [ NewClient (Bot.Homeserver cfg) (Bot.UserID cfg) (Bot.UserAccessKey cfg);
         NewCryptoHelper (Bot.Pickle cfg) (Bot.DBPath cfg);
         CryptoHelperInit (passwordLogin (Bot.UserID cfg) (Bot.UserPassword cfg));
         CallNewGPT (Bot.OpenAIKey cfg) ] /\
   BotStartup.config m' = cfg /\
   BotStartup.client m'
     = Some {| cl_UserID := Bot.UserID cfg; cl_Crypto := true |} /\
   BotStartup.cryptoHelper m'
     = Some {| LoginAs := Some (passwordLogin (Bot.UserID cfg)
                                  (Bot.UserPassword cfg)) |} /\
   BotStartup.gptClient m' = Some (NewGPT (Bot.OpenAIKey cfg)) /\
   BotStartup.conversations m' = [] /\
   exists bot,
     BotStartup.running m' = Some bot /\
     Bot.config bot = cfg /\
     Bot.client_UserID bot = Bot.UserID cfg /\
     Bot.conversations bot = [] /\
     (forall w evt,
        addressed (Bot.UserID cfg) evt ->
        joins (snd (Bot.handle Bot.InviteHandler bot w evt))
        = [JoinRoomByID (Mautrix.RoomID evt)]) /\
     (forall R w evt,
        Mautrix.Sender evt = Bot.UserID cfg ->
        Bot.handle (Bot.RespondHandler R) bot w evt = (bot, [received evt]))).
Proof.
  cbn zeta. unfold BotStartup.Init.
  destruct (newClient h _ _ _) as [[] | e1] eqn:H1;
    [destruct (newCryptoHelper h _ _) as [[] | e2] eqn:H2;
     [destruct (cryptoHelperInit h _) as [[] | e3] eqn:H3 |] |];
    try (split; [split; [discriminate | by intros (? & ? & ?)] | discriminate]).
  split; [done |]. intros _.
  do 6 (split; [reflexivity |]).
  set (bot := {| Bot.config := BotStartup.config m;
                 Bot.client_UserID := Bot.UserID (BotStartup.config m);
                 Bot.conversations := [] |}).
  exists bot. split; [reflexivity |].
  split; [done | split; [done | split; [done |]]]. split.
  - intros w evt Haddr.
    destruct (Bot.handle Bot.InviteHandler bot w evt) as [m1 t1] eqn:Hh.
    apply invite_cases_bot in Hh as (_ & _ & _ & H & _). by apply H.
  - intros R w evt Hown. by apply respond_own.
Qed.

Lemma init_success_gives_one_identity_witness :
  fst (BotStartup.Init string id startedBot hostUp)
  = (startedBotAgain, [ NewClient "https://example.org" "@bot:example.org" "key";
                        NewCryptoHelper "pickle" "bot.db";
                        CryptoHelperInit (passwordLogin "@bot:example.org" "pw");
                        CallNewGPT "sk" ]) /\
  BotStartup.conversations startedBot <> [] /\
  exists bot,
    BotStartup.running
      (fst (fst (BotStartup.Init string id startedBot hostUp))) = Some bot /\
    Bot.conversations bot = [] /\
    joins (snd (Bot.handle Bot.InviteHandler bot joinDown invite))
    = [JoinRoomByID "!lounge:example.org"].
Proof.
  split; [reflexivity | split; [discriminate |]].
  pose proof (init_success_gives_one_identity string id startedBot hostUp) as H.
  cbn zeta in H.
  destruct (BotStartup.Init string id startedBot hostUp) as [[m' t] err] eqn:Hinit.
  injection Hinit as <- <- <-. destruct H as [_ H].
  destruct (H eq_refl)
    as (_ & _ & _ & _ & _ & _ & bot & Hrun & _ & _ & Hempty & Hjoin & _).
  exists bot. split; [exact Hrun | split; [exact Hempty |]].
  apply Hjoin. split; reflexivity.
Defined.

(** X11: a failing [Init] of package [bot] returns the error of the first
    call that fails, after the calls before it have succeeded, and makes no
    call after it.  It leaves the store and the completion client as they
    were, and it never leaves a client with the crypto helper attached that
    was not there before. *)
Theorem init_failure_stops_at_first_error
    (GPT : Type) (NewGPT : string -> GPT)
    (m : BotStartup.Instance GPT) (h : Host) (e : string) :
  snd (BotStartup.Init GPT NewGPT m h) = Some e ->
  let '(m', t, _) := BotStartup.Init GPT NewGPT m h in
  (exists before c,
     t = before ++ [c] /\ answer h c = Err e /\
     Forall (fun c => answer h c = Ok tt) before) /\
  (forall key, ~ In (CallNewGPT key) t) /\
  BotStartup.conversations m' = BotStartup.conversations m /\
  BotStartup.gptClient m' = BotStartup.gptClient m /\
  (forall cl, BotStartup.client m' = Some cl -> cl_Crypto cl = true ->
              BotStartup.client m = Some cl).
Proof.
  intros Herr. pose proof (init_trace GPT NewGPT m h) as H.
  destruct (BotStartup.Init GPT NewGPT m h) as [[m' t] err].
  cbn [snd] in Herr. subst err.
  destruct H as (_ & Hcalls & Hgpt & Hstore & Hclient & Hcl).
  split; [exact Hcalls | split; [exact Hgpt | split; [exact Hstore |]]].
  split; [exact Hclient |]. intros cl Hsome Hcrypto.
  rewrite Hsome in Hcl. rewrite <- Hcl; done.
Qed.

Lemma init_failure_stops_at_first_error_witness :
  snd (BotStartup.Init string id startedBot hostNoStore)
  = Some "unable to open database file" /\
  BotStartup.conversations
    (fst (fst (BotStartup.Init string id startedBot hostNoStore)))
  = BotStartup.conversations startedBot /\
  snd (fst (BotStartup.Init string id startedBot hostNoStore))
  = [ NewClient "https://example.org" "@bot:example.org" "key";
      NewCryptoHelper "pickle" "bot.db" ].
Proof.
  split; [reflexivity |].
  pose proof (init_failure_stops_at_first_error string id startedBot
                hostNoStore _ eq_refl) as H.
  destruct (BotStartup.Init string id startedBot hostNoStore)
    as [[m' t] err] eqn:Hinit.
  destruct H as (_ & _ & Hstore & _). split; [exact Hstore |].
  injection Hinit as <- <- <-. reflexivity.
Defined.

(** X12: [Init] of package [matrix] closes the readline it has created
    before it returns, on success as on every failure: once it has returned,
    the instance holds a closed readline, and the close is the last call made
    and the only close.  When the readline cannot be created nothing else is
    tried and the instance is what it was. *)
Theorem legacy_init_closes_its_readline
    (m : MatrixPkgStartup.Instance) (h : Host) :
  let '(m', t, err) := MatrixPkgStartup.Init m h in
  match readlineNew h "[no room]> " with
  | Ok _ =>
      MatrixPkgStartup.readline m'
        = Some {| MatrixPkgStartup.closed := true |} /\
      last t = Some ReadlineClose /\
      List.count_occ Call_eq_dec t ReadlineClose = 1
  | Err e =>
      m' = m /\ t = [ReadlineNew "[no room]> "] /\ err = Some e
  end.
Proof.
  unfold MatrixPkgStartup.Init.
  destruct (readlineNew h _) as [[] | e0]; [| done].
  destruct (newClient h _ _ _) as [[] | e1];
    [destruct (newCryptoHelper h _ _) as [[] | e2];
     [destruct (cryptoHelperInit h _) as [[] | e3] |] |];
    (split; [reflexivity |]); (split; [reflexivity |]);
    cbn [app List.count_occ];
    repeat (destruct (Call_eq_dec _ _) as [? | ?]; try discriminate;
            try congruence).
Qed.
